(** * Retrieval engine and answer synthesis of the RAG knowledge base

    A shallow embedding of [vector_store.py] (class [VectorStore]) and
    [llm_service.py] (class [LLMService]), with the properties their
    specification states about them; and of [document_processor.py] (class
    [DocumentProcessor]) and the query, delete and upload endpoints of
    [main.py], with further properties read off the code.

    Conventions.
    - A Python [str] is a [string]; a character is read as the code point
      of the same number (0..255), so [lower], [isspace] and [len] are
      Python's on that range.
    - A Python [int] is a [Z]; list lengths are [nat].
    - Floats are not computed with: the score type, its order, its
      formatting, the encoder and the inner product are fields of the
      classes [Floats] and [Encoder].
    - A method that can raise returns a [Result]; methods of the vector
      store run in the monad [M], which threads the in-memory object, the
      files on disk and the log, and keeps the state reached when an
      exception leaves the method. *)

From stdpp Require Import base gmap sets list strings pretty sorting.
From Stdlib Require Import ZArith QArith.QArith_base.
From Stdlib Require Import Ascii.

#[local] Open Scope Z_scope.

(** ** Python strings *)

Module PyStr.

Definition nl : string := String (ascii_of_N 10) EmptyString.

(** [str.isspace] of one character: TAB..CR, FS..US, space, NEL, NBSP. *)
Definition isspace (c : ascii) : bool :=
  let n := N_of_ascii c in
  (((9 <=? n) && (n <=? 13)) || ((28 <=? n) && (n <=? 32))
   || (n =? 133) || (n =? 160))%N.

(** [str.lower] of one character: A..Z and the accented capitals
    U+00C0..U+00DE (the multiplication sign U+00D7 apart). *)
Definition lower_char (c : ascii) : ascii :=
  let n := N_of_ascii c in
  if (((65 <=? n) && (n <=? 90))
      || ((192 <=? n) && (n <=? 222) && negb (n =? 215)))%N
  then ascii_of_N (n + 32) else c.

Fixpoint lower (s : string) : string :=
  match s with
  | EmptyString => EmptyString
  | String c s' => String (lower_char c) (lower s')
  end.

(** [s.split(sep)] for a one-character separator: empty pieces are kept. *)
Fixpoint split_on (sep : ascii) (s : string) : list string :=
  match s with
  | EmptyString => [EmptyString]
  | String c s' =>
      if Ascii.eqb c sep then EmptyString :: split_on sep s'
      else match split_on sep s' with
           | [] => [String c EmptyString]
           | p :: ps => String c p :: ps
           end
  end.

Fixpoint lstrip (s : string) : string :=
  match s with
  | EmptyString => EmptyString
  | String c s' => if isspace c then lstrip s' else s
  end.

Fixpoint rstrip (s : string) : string :=
  match s with
  | EmptyString => EmptyString
  | String c s' =>
      match rstrip s' with
      | EmptyString => if isspace c then EmptyString else String c EmptyString
      | r => String c r
      end
  end.

(** [s.strip()] *)
Definition strip (s : string) : string := rstrip (lstrip s).

(** [s.split()]: the maximal runs of non-whitespace characters. *)
Fixpoint split (s : string) : list string :=
  match s with
  | EmptyString => []
  | String c s' =>
      if isspace c then split s'
      else match s' with
           | EmptyString => [String c EmptyString]
           | String c' _ =>
               if isspace c' then String c EmptyString :: split s'
               else match split s' with
                    | [] => [String c EmptyString]
                    | w :: ws => String c w :: ws
                    end
           end
  end.

(** [sep.join(parts)] *)
Fixpoint join (sep : string) (parts : list string) : string :=
  match parts with
  | [] => EmptyString
  | [p] => p
  | p :: ps => p +:+ sep +:+ join sep ps
  end.

(** [s[:n]] for [n >= 0] *)
Fixpoint prefix (n : nat) (s : string) : string :=
  match n, s with
  | O, _ => EmptyString
  | S _, EmptyString => EmptyString
  | S n', String c s' => String c (prefix n' s')
  end.

(** truthiness of a string: [if s] *)
Definition truthy (s : string) : bool :=
  match s with EmptyString => false | _ => true end.

End PyStr.

(** ** Exceptions *)

Inductive Exn : Type :=
| ValueError (msg : string)
| AssertionError
| IndexError
| AttributeError
| OSError (path : string)
| ReadError (path : string)
| BackendError (detail : string).

Inductive Result (A : Type) : Type :=
| Ok (a : A)
| Raise (e : Exn).
Arguments Ok {A} a.
Arguments Raise {A} e.

(** ** What the code takes from its libraries *)

(** numpy and Python floats: the scores, their order, and
    [format(x, '.<digits>f')]. *)
Class Floats : Type := {
  Score : Type;
  score_leb : Score -> Score -> bool;
  format_float : nat -> Score -> string
}.

(** [SentenceTransformer.encode] (one row per text, [encoder_dim] columns),
    [faiss.normalize_L2] on one row, the inner product of two rows, and the
    score the scan writes next to the label [-1] of a missing neighbour. *)
Class Encoder `{Floats} : Type := {
  Vec : Type;
  encoder_dim : Z;
  encode : list string -> list Vec;
  normalize_L2 : Vec -> Vec;
  inner : Vec -> Vec -> Score;
  pad_score : Score
}.

(** The interpreter: the order in which a [set] of strings is iterated, and
    [str(e)] of an exception. *)
Class PyRuntime : Type := {
  list_of_set : gset string -> list string;
  str_exn : Exn -> string
}.

(** ** Data model *)

(** The metadata dict of a chunk; a key that is absent is [None]. *)
Record Metadata : Type := {
  doc_id : option string;
  chunk_id : option Z;
  source : option string;
  file_path : option string
}.

(** [for i, x in enumerate(l)] *)
Definition enumerate {A : Type} (l : list A) : list (nat * A) := imap pair l.

(** [l[i]] on a list, with Python's negative indices. *)
Definition py_getitem {A : Type} (l : list A) (i : Z) : Result A :=
  let n := Z.of_nat (List.length l) in
  let j := if i <? 0 then i + n else i in
  if j <? 0 then Raise IndexError
  else match l !! Z.to_nat j with
       | Some x => Ok x
       | None => Raise IndexError
       end.

(** ** llm_service.py *)

Module LLM.
Section LLMService.
Context `{Floats} `{PyRuntime}.

Import PyStr.

(** One retrieved chunk: [(text, metadata, score)]. *)
Definition Chunk : Type := string * Metadata * Score.

Record ChatRequest : Type := {
  model : string;
  messages : list (string * string);
  temperature : Q;
  max_tokens : Z
}.

(** [openai_client.chat.completions.create(...)] followed by
    [.choices[0].message.content]: the content (which may be [None]) or
    the exception of the call. *)
Class Backend : Type := {
  chat_completions_create : ChatRequest -> Result (option string)
}.
Context `{Backend}.

Record LLMService : Type := { use_openai : bool }.

(** [__init__]: the backend is used when [OPENAI_API_KEY] is set and not
    empty. *)
Definition LLMService_init (OPENAI_API_KEY : option string) : LLMService :=
  {| use_openai := match OPENAI_API_KEY with
                   | Some key => truthy key
                   | None => false
                   end |}.

(** The methods of the service that [generate_response] can enter, and the
    request sent to the backend. *)
Inductive Call : Type :=
| CallPrepareContext
| CallOpenAIResponse
| CallBackend (req : ChatRequest)
| CallFallbackResponse.

(** A value together with the calls made to compute it, oldest first. *)
Definition Traced (A : Type) : Type := list Call * A.
Definition tret {A : Type} (a : A) : Traced A := ([], a).
Definition tbind {A B : Type} (m : Traced A) (f : A -> Traced B) : Traced B :=
  let '(t1, a) := m in let '(t2, b) := f a in (t1 ++ t2, b).
Definition enter {A : Type} (c : Call) (body : Traced A) : Traced A :=
  ([c] ++ body.1, body.2).

Definition context_block (i : nat) (c : Chunk) : string :=
  let '(text, metadata, score) := c in
  let src := default "Unknown" (source metadata) in
  let cid := default 0 (chunk_id metadata) in
  "[Source " +:+ pretty (i + 1)%nat +:+ ": " +:+ src +:+ ", Chunk "
    +:+ pretty cid +:+ "]" +:+ nl +:+ text +:+ nl.

Definition _prepare_context (context_chunks : list Chunk) : string :=
  let context_parts :=
    fold_left (fun parts ic => parts ++ [context_block ic.1 ic.2])
              (enumerate (take 5 context_chunks)) [] in
  join nl context_parts.

Definition system_prompt : string :=
  "You are a helpful AI assistant that answers questions based on provided context. "
  +:+ nl +:+ nl
  +:+ "        Instructions:" +:+ nl
  +:+ "        - Answer the question based ONLY on the provided context" +:+ nl
  +:+ "        - If the context doesn't contain enough information, say so clearly" +:+ nl
  +:+ "        - Be concise but comprehensive" +:+ nl
  +:+ "        - Cite specific sources when making claims" +:+ nl
  +:+ "        - If asked about something not in the context, politely decline and explain what information is available" +:+ nl
  +:+ "        ".

Definition user_prompt (query context : string) : string :=
  "Context:" +:+ nl +:+ context +:+ nl +:+ nl
  +:+ "Question: " +:+ query +:+ nl +:+ nl
  +:+ "Please provide a detailed answer based on the context above.".

Definition _generate_openai_response (query context : string) : Traced string :=
  let req := {| model := "gpt-3.5-turbo";
                messages := [("system", system_prompt);
                             ("user", user_prompt query context)];
                temperature := 3 # 10;
                max_tokens := 500 |} in
  enter CallOpenAIResponse
    (enter (CallBackend req)
       (tret match chat_completions_create req with
             | Ok (Some content) => strip content
             | Ok None =>
                 "Sorry, I encountered an error generating the response: "
                 +:+ str_exn AttributeError
             | Raise e =>
                 "Sorry, I encountered an error generating the response: "
                 +:+ str_exn e
             end)).

(** [[s.strip() for s in best_chunk.split('.') if s.strip()]] *)
Definition sentences_of (best_chunk : string) : list string :=
  map strip (List.filter (fun s => truthy (strip s)) (split_on "."%char best_chunk)).

(** [set(s.split())] *)
Definition word_set (s : string) : gset string := list_to_set (split s).

(** The loop over [sentences] that fills [relevant_sentences]. *)
Definition relevant_sentences (query_words : gset string)
    (sentences : list string) : list string :=
  fold_left
    (fun acc sentence =>
       let sentence_words := word_set (lower sentence) in
       if bool_decide (query_words ∩ sentence_words ≠ ∅)
       then acc ++ [sentence] else acc)
    sentences [].

Definition multi_source_note (context_chunks : list Chunk) : string :=
  if (1 <? List.length context_chunks)%nat then
    let sources :=
      map (fun c : Chunk => default "Unknown" (source c.1.2))
          (take 3 context_chunks) in
    let unique_sources := list_of_set (list_to_set sources) in
    if (1 <? List.length unique_sources)%nat then
      nl +:+ nl +:+ "Information was found across "
        +:+ pretty (List.length unique_sources) +:+ " sources: "
        +:+ join ", " unique_sources
    else ""
  else "".

Definition fallback_body (query : string) (context_chunks : list Chunk) : string :=
  let query_lower := lower query in
  match context_chunks with
  | (best_chunk, best_metadata, best_score) :: _ =>
      let sentences := sentences_of best_chunk in
      let query_words := word_set query_lower in
      let relevant := relevant_sentences query_words sentences in
      match relevant with
      | _ :: _ =>
          "Based on the available information:" +:+ nl +:+ nl
          +:+ join ". " (take 3 relevant)
          +:+ nl +:+ nl +:+ "Source: "
          +:+ default "Unknown document" (source best_metadata)
          +:+ " (Relevance: " +:+ format_float 2 best_score +:+ ")"
      | [] =>
          "I found information related to your query in "
          +:+ default "the document" (source best_metadata) +:+ ", "
          +:+ "but I couldn't extract specific details. Here's what I found:"
          +:+ nl +:+ nl
          +:+ (if (300 <? String.length best_chunk)%nat
               then prefix 300 best_chunk +:+ "..." else best_chunk)
          +:+ nl +:+ nl +:+ "(Relevance: " +:+ format_float 2 best_score +:+ ")"
      end
  | [] =>
      "I couldn't find relevant information to answer your question in the uploaded documents."
  end.

Definition _generate_fallback_response (query context : string)
    (context_chunks : list Chunk) : Traced string :=
  enter CallFallbackResponse
    (tret (fallback_body query context_chunks
           +:+ multi_source_note context_chunks)).

Definition generate_response (self : LLMService) (query : string)
    (context_chunks : list Chunk) : Traced string :=
  match context_chunks with
  | [] => tret "I couldn't find relevant information to answer your question."
  | _ :: _ =>
      tbind (enter CallPrepareContext (tret (_prepare_context context_chunks)))
        (fun context =>
           if use_openai self
           then _generate_openai_response query context
           else _generate_fallback_response query context context_chunks)
  end.

End LLMService.
End LLM.

(** ** The FAISS index used by the store: [faiss.IndexFlatIP]

    An exact scan: every stored row is scored by its inner product with the
    query, and the [k] best are reported, best first, rows of equal score in
    insertion order; places for which no row is left carry the label [-1]. *)

Module Faiss.
Section IndexFlatIP.
Context `{Encoder}.

(** A two-dimensional float32 array: its second dimension and its rows. *)
Record ndarray : Type := { cols : Z; rows : list Vec }.

Record IndexFlatIP : Type := { d : Z; xb : list Vec }.

(** [faiss.IndexFlatIP(dim)] *)
Definition new (dim : Z) : IndexFlatIP := {| d := dim; xb := [] |}.

Definition ntotal (ix : IndexFlatIP) : Z := Z.of_nat (length (xb ix)).

(** [index.add(x)]: the wrapper asserts the dimension, then appends. *)
Definition add (ix : IndexFlatIP) (x : ndarray) : Result IndexFlatIP :=
  if cols x =? d ix then Ok {| d := d ix; xb := xb ix ++ rows x |}
  else Raise AssertionError.

(** A scored row: [(score, label)]. *)
Definition Hit : Type := Score * Z.

Fixpoint insert_hit (h : Hit) (l : list Hit) : list Hit :=
  match l with
  | [] => [h]
  | h' :: l' =>
      if score_leb h'.1 h.1 then h :: h' :: l' else h' :: insert_hit h l'
  end.

Definition rank (hits : list Hit) : list Hit := foldr insert_hit [] hits.

Definition scan (ix : IndexFlatIP) (q : Vec) (k : nat) : list Hit :=
  let scored := imap (fun i v => (inner q v, Z.of_nat i)) (xb ix) in
  let best := take k (rank scored) in
  best ++ replicate (k - length best) (pad_score, -1).

(** [index.search(x, k)]: the wrapper asserts the dimension and [k > 0],
    and returns the arrays of scores and of labels, one row per query. *)
Definition search (ix : IndexFlatIP) (x : ndarray) (k : Z)
  : Result (list (list Score) * list (list Z)) :=
  if negb (cols x =? d ix) then Raise AssertionError
  else if negb (0 <? k) then Raise AssertionError
  else
    let found := map (fun q => scan ix q (Z.to_nat k)) (rows x) in
    Ok (map (map fst) found, map (map snd) found).

End IndexFlatIP.
End Faiss.

(** ** vector_store.py *)

Module Store.
Section VectorStore.
Context `{Encoder} `{PyRuntime}.

Import Faiss.

Record VectorStore : Type := {
  model_name : string;
  index_path : string;
  metadata_path : string;
  dimension : Z;
  index : IndexFlatIP;
  metadata : list Metadata;
  texts : list string
}.

(** What [pickle.load] can give back: the dict written by [_save_index]
    (any of its keys may be missing), or some other object. *)
Inductive PickleValue : Type :=
| PDict (p_metadata : option (list Metadata)) (p_texts : option (list string))
        (p_model_name : option string)
| POther.

(** A file by what its readers make of it. *)
Inductive File : Type :=
| FaissBlob (ix : IndexFlatIP)
| PickleBlob (v : PickleValue)
| Unreadable.

Inductive Level : Type := INFO | WARNING | ERROR.

Record World : Type := {
  self : VectorStore;
  disk : gmap string File;
  log : list (Level * string)
}.

(** *** State and exceptions *)

Definition M (A : Type) : Type := World -> Result A * World.

Definition ret {A : Type} (a : A) : M A := fun w => (Ok a, w).
Definition raise {A : Type} (e : Exn) : M A := fun w => (Raise e, w).
Definition bind {A B : Type} (m : M A) (f : A -> M B) : M B :=
  fun w => match m w with
           | (Ok a, w') => f a w'
           | (Raise e, w') => (Raise e, w')
           end.
Definition try_except {A : Type} (body : M A) (handler : Exn -> M A) : M A :=
  fun w => match body w with
           | (Ok a, w') => (Ok a, w')
           | (Raise e, w') => handler e w'
           end.
Definition lift {A : Type} (r : Result A) : M A := fun w => (r, w).

Notation "x <- m ;; k" := (bind m (fun x => k))
  (at level 100, m at next level, right associativity).
Notation "m ;;; k" := (bind m (fun _ => k))
  (at level 100, right associativity).

Definition get_self : M VectorStore := fun w => (Ok (self w), w).
Definition modify_self (f : VectorStore -> VectorStore) : M unit :=
  fun w => (Ok tt, {| self := f (self w); disk := disk w; log := log w |}).
Definition get_disk : M (gmap string File) := fun w => (Ok (disk w), w).
Definition modify_disk (f : gmap string File -> gmap string File) : M unit :=
  fun w => (Ok tt, {| self := self w; disk := f (disk w); log := log w |}).
Definition logger (lvl : Level) (msg : string) : M unit :=
  fun w => (Ok tt, {| self := self w; disk := disk w;
                      log := log w ++ [(lvl, msg)] |}).

Definition set_index (ix : IndexFlatIP) (s : VectorStore) : VectorStore :=
  {| model_name := model_name s; index_path := index_path s;
     metadata_path := metadata_path s; dimension := dimension s;
     index := ix; metadata := metadata s; texts := texts s |}.
Definition set_metadata (ms : list Metadata) (s : VectorStore) : VectorStore :=
  {| model_name := model_name s; index_path := index_path s;
     metadata_path := metadata_path s; dimension := dimension s;
     index := index s; metadata := ms; texts := texts s |}.
Definition set_texts (ts : list string) (s : VectorStore) : VectorStore :=
  {| model_name := model_name s; index_path := index_path s;
     metadata_path := metadata_path s; dimension := dimension s;
     index := index s; metadata := metadata s; texts := ts |}.

(** [Path(p).exists()] *)
Definition exists_ (p : string) : M bool :=
  fun w => (Ok (bool_decide (is_Some (disk w !! p))), w).

(** *** Embeddings *)

(** [_generate_embeddings]: the encoder's rows as a float32 array. *)
Definition _generate_embeddings (ts : list string) : ndarray :=
  {| cols := encoder_dim; rows := encode ts |}.

(** [faiss.normalize_L2(x)], row by row. *)
Definition normalize_rows (x : ndarray) : ndarray :=
  {| cols := cols x; rows := map normalize_L2 (rows x) |}.

(** [x[0:1]] *)
Definition first_row (x : ndarray) : ndarray :=
  {| cols := cols x; rows := take 1 (rows x) |}.

(** *** Persistence *)

(** What the file system does to a save: nothing wrong, or the write of
    one of the two files raises and leaves [residue] at its path. *)
Inductive SaveFault : Type :=
| SaveSucceeds
| WriteIndexFails (residue : option File)
| WriteMetadataFails (residue : option File).

Definition write_index (fault : SaveFault) : M unit :=
  s <- get_self ;;
  match fault with
  | WriteIndexFails residue =>
      modify_disk (partial_alter (fun _ => residue) (index_path s)) ;;;
      raise (OSError (index_path s))
  | _ => modify_disk (<[index_path s := FaissBlob (index s)]>)
  end.

Definition pickle_dump (fault : SaveFault) : M unit :=
  s <- get_self ;;
  match fault with
  | WriteMetadataFails residue =>
      modify_disk (partial_alter (fun _ => residue) (metadata_path s)) ;;;
      raise (OSError (metadata_path s))
  | _ =>
      modify_disk (<[metadata_path s :=
        PickleBlob (PDict (Some (metadata s)) (Some (texts s))
                          (Some (model_name s)))]>)
  end.

Definition _save_index (fault : SaveFault) : M unit :=
  try_except
    (write_index fault ;;;
     pickle_dump fault ;;;
     s <- get_self ;;
     logger INFO ("Saved vector index with " +:+ pretty (ntotal (index s))
                  +:+ " vectors"))
    (fun e => logger ERROR ("Error saving index: " +:+ str_exn e)).

(** [faiss.read_index(path)] *)
Definition read_index (p : string) : M IndexFlatIP :=
  dk <- get_disk ;;
  match dk !! p with
  | Some (FaissBlob ix) => ret ix
  | _ => raise (ReadError p)
  end.

(** [pickle.load(f)] on the opened file *)
Definition pickle_load (p : string) : M PickleValue :=
  dk <- get_disk ;;
  match dk !! p with
  | Some (PickleBlob v) => ret v
  | _ => raise (ReadError p)
  end.

Definition _load_index : M unit :=
  try_except
    (s <- get_self ;;
     index_there <- exists_ (index_path s) ;;
     metadata_there <- exists_ (metadata_path s) ;;
     if index_there && metadata_there then
       ix <- read_index (index_path s) ;;
       modify_self (set_index ix) ;;;
       data <- pickle_load (metadata_path s) ;;
       match data with
       | POther => raise AttributeError
       | PDict p_metadata p_texts p_model_name =>
           modify_self (set_metadata (default [] p_metadata)) ;;;
           modify_self (set_texts (default [] p_texts)) ;;;
           let saved_model := default (model_name s) p_model_name in
           (if bool_decide (saved_model ≠ model_name s)
            then logger WARNING ("Model mismatch: saved=" +:+ saved_model
                                 +:+ ", current=" +:+ model_name s)
            else ret tt) ;;;
           s' <- get_self ;;
           logger INFO ("Loaded vector index with "
                        +:+ pretty (ntotal (index s')) +:+ " vectors")
       end
     else logger INFO "No existing index found, starting fresh")
    (fun e =>
       logger ERROR ("Error loading index: " +:+ str_exn e) ;;;
       logger INFO "Starting with fresh index" ;;;
       s <- get_self ;;
       modify_self (set_index (new (dimension s))) ;;;
       modify_self (set_metadata []) ;;;
       modify_self (set_texts [])).

(** [VectorStore(model_name, index_path, metadata_path)] on a machine whose
    files are [dk]. *)
Definition VectorStore_init (name ipath mpath : string)
    (dk : gmap string File) : Result unit * World :=
  (logger INFO ("Loading embedding model: " +:+ name) ;;; _load_index)
    {| self := {| model_name := name; index_path := ipath;
                  metadata_path := mpath; dimension := 384;
                  index := new 384; metadata := []; texts := [] |};
       disk := dk; log := [] |}.

(** *** Ingestion and search *)

Definition add_documents (fault : SaveFault) (new_texts : list string)
    (metadatas : list Metadata) : M unit :=
  if negb (length new_texts =? length metadatas)%nat
  then raise (ValueError "Number of texts and metadatas must match")
  else match new_texts with
  | [] => ret tt
  | _ :: _ =>
      logger INFO ("Adding " +:+ pretty (length new_texts)
                   +:+ " documents to vector store") ;;;
      let embeddings := normalize_rows (_generate_embeddings new_texts) in
      s <- get_self ;;
      ix <- lift (add (index s) embeddings) ;;
      modify_self (set_index ix) ;;;
      modify_self (fun s => set_texts (texts s ++ new_texts) s) ;;;
      modify_self (fun s => set_metadata (metadata s ++ metadatas) s) ;;;
      _save_index fault ;;;
      s' <- get_self ;;
      logger INFO ("Successfully added " +:+ pretty (length new_texts)
                   +:+ " documents. Total vectors: "
                   +:+ pretty (ntotal (index s')))
  end.

(** One stored chunk as a search reports it: [(text, metadata, score)]. *)
Definition Found : Type := string * Metadata * Score.

(** The loop of [similarity_search] over [zip(scores[0], indices[0])]. *)
Fixpoint format_results (s : VectorStore) (hits : list (Score * Z))
    (results : list Found) : Result (list Found) :=
  match hits with
  | [] => Ok results
  | (score, idx) :: hits' =>
      if (idx <? Z.of_nat (length (texts s))) && negb (idx =? -1) then
        match py_getitem (texts s) idx, py_getitem (metadata s) idx with
        | Ok t, Ok m => format_results s hits' (results ++ [(t, m, score)])
        | Raise e, _ => Raise e
        | _, Raise e => Raise e
        end
      else format_results s hits' results
  end.

Definition similarity_search (query : string) (k : Z) : M (list Found) :=
  s <- get_self ;;
  if ntotal (index s) =? 0 then ret []
  else
    let query_embeddings := _generate_embeddings [query] in
    let query_embedding := normalize_rows (first_row query_embeddings) in
    let k := Z.min k (ntotal (index s)) in
    found <- lift (search (index s) query_embedding k) ;;
    let scores := found.1 in
    let indices := found.2 in
    scores0 <- lift (py_getitem scores 0) ;;
    indices0 <- lift (py_getitem indices 0) ;;
    lift (format_results s (zip scores0 indices0) []).

(** *** Statistics and reset *)

Record Stats : Type := {
  total_vectors : Z;
  stats_dimension : Z;
  stats_model_name : string;
  total_texts : nat;
  total_metadata : nat
}.

Definition get_stats (s : VectorStore) : Stats :=
  {| total_vectors := ntotal (index s);
     stats_dimension := dimension s;
     stats_model_name := model_name s;
     total_texts := length (texts s);
     total_metadata := length (metadata s) |}.

(** [Path(p).unlink()]; [unlink_fails p] tells whether the file system
    refuses it. *)
Definition unlink (unlink_fails : string -> bool) (p : string) : M unit :=
  if unlink_fails p then raise (OSError p) else modify_disk (delete p).

Fixpoint remove_saved (unlink_fails : string -> bool) (paths : list string)
  : M unit :=
  match paths with
  | [] => ret tt
  | p :: paths' =>
      there <- exists_ p ;;
      (if there then unlink unlink_fails p else ret tt) ;;;
      remove_saved unlink_fails paths'
  end.

Definition clear (unlink_fails : string -> bool) : M unit :=
  s <- get_self ;;
  modify_self (set_index (new (dimension s))) ;;;
  modify_self (set_metadata []) ;;;
  modify_self (set_texts []) ;;;
  remove_saved unlink_fails [index_path s; metadata_path s] ;;;
  logger INFO "Cleared vector store".

(** *** Sequences of calls on one store *)

(** The public calls other than [add_documents]. *)
Inductive Op : Type :=
| OpSearch (query : string) (k : Z)
| OpGetStats
| OpClear (unlink_fails : string -> bool).

Definition step (o : Op) (w : World) : World :=
  match o with
  | OpSearch q k => (similarity_search q k w).2
  | OpGetStats => w
  | OpClear f => (clear f w).2
  end.

Definition run (ops : list Op) (w : World) : World :=
  fold_left (fun w o => step o w) ops w.

End VectorStore.
End Store.

(** ** llm_service.py: the model report *)

Module LLMInfo.

(** The dict returned by [get_model_info]. *)
Record ModelInfo : Type := {
  using_openai : bool;
  model : string;
  api_key_configured : bool
}.

(** [get_model_info], called with the environment variable
    [OPENAI_API_KEY] as it is at the time of the call. *)
Definition get_model_info (self : LLM.LLMService)
    (OPENAI_API_KEY : option string) : ModelInfo :=
  {| using_openai := LLM.use_openai self;
     model := if LLM.use_openai self then "gpt-3.5-turbo"
              else "fallback-text-processor";
     api_key_configured := match OPENAI_API_KEY with
                           | Some key => PyStr.truthy key
                           | None => false
                           end |}.

End LLMInfo.

(** ** document_processor.py *)

Module Docs.

(** The exceptions the processor raises. *)
Inductive Error : Type :=
| FileNotFoundError (msg : string)
| ValueError (msg : string)
| Exception (msg : string).

Inductive Outcome (A : Type) : Type :=
| Returns (a : A)
| Raises (e : Error).
Arguments Returns {A} a.
Arguments Raises {A} e.

(** What the processor takes from the file system and its libraries: the
    path object ([str], [exists], [suffix]); the text of the pages of a PDF
    ([fitz]); the paragraphs of a DOCX and the cells of its tables, table
    by table and row by row ([docx]); the content of a text file; and
    [RecursiveCharacterTextSplitter.split_text] for a chunk size and an
    overlap. A reader gives [inl] of the text of its exception when it
    fails. *)
Class DocumentIO : Type := {
  path_str : string -> string;
  path_exists : string -> bool;
  path_suffix : string -> string;
  fitz_pages : string -> string + list string;
  docx_document : string -> string + (list string * list (list (list string)));
  read_utf8 : string -> string + string;
  split_text : Z -> Z -> string -> list string
}.

Section DocumentProcessor.
Context `{DocumentIO}.
Import PyStr.

Record DocumentProcessor : Type := {
  chunk_size : Z;
  chunk_overlap : Z
}.

(** [DocumentProcessor()] *)
Definition default_processor : DocumentProcessor :=
  {| chunk_size := 1000; chunk_overlap := 200 |}.

(** One chunk object of [process_document]. *)
Record ChunkObject : Type := {
  content : string;
  chunk_id : nat;
  char_count : nat;
  word_count : nat
}.

Definition _extract_text_from_pdf (file_path : string) : Outcome string :=
  match fitz_pages file_path with
  | inr pages =>
      Returns (fold_left (fun text page => text +:+ (page +:+ nl)) pages "")
  | inl e => Raises (Exception ("Error extracting text from PDF: " +:+ e))
  end.

Definition _extract_text_from_docx (file_path : string) : Outcome string :=
  match docx_document file_path with
  | inr (paragraphs, tables) =>
      let text :=
        fold_left (fun text paragraph => text +:+ (paragraph +:+ nl))
                  paragraphs "" in
      Returns
        (fold_left
           (fun text table =>
              fold_left
                (fun text row =>
                   fold_left (fun text cell => text +:+ (cell +:+ " ")) row text
                   +:+ nl)
                table text)
           tables text)
  | inl e => Raises (Exception ("Error extracting text from DOCX: " +:+ e))
  end.

Definition _extract_text_from_txt (file_path : string) : Outcome string :=
  match read_utf8 file_path with
  | inr text => Returns text
  | inl e => Raises (Exception ("Error extracting text from TXT: " +:+ e))
  end.

(** The loop of [process_document] over [enumerate(chunks)]. *)
Definition chunk_objects (chunks : list string) : list ChunkObject :=
  fold_left
    (fun objects ic =>
       if truthy (strip ic.2)
       then objects ++ [{| content := strip ic.2;
                           chunk_id := ic.1;
                           char_count := String.length ic.2;
                           word_count := length (split ic.2) |}]
       else objects)
    (enumerate chunks) [].

Definition process_document (self : DocumentProcessor) (file_path : string)
  : Outcome (list ChunkObject) :=
  if negb (path_exists file_path)
  then Raises (FileNotFoundError ("File not found: " +:+ path_str file_path))
  else
    let suffix := lower (path_suffix file_path) in
    let extracted :=
      if String.eqb suffix ".pdf"
      then _extract_text_from_pdf (path_str file_path)
      else if String.eqb suffix ".docx"
      then _extract_text_from_docx (path_str file_path)
      else if String.eqb suffix ".txt" || String.eqb suffix ".md"
      then _extract_text_from_txt (path_str file_path)
      else Raises (ValueError ("Unsupported file format: "
                               +:+ path_suffix file_path)) in
    match extracted with
    | Raises e => Raises e
    | Returns text =>
        if negb (truthy (strip text))
        then Raises (ValueError "No text content found in document")
        else Returns (chunk_objects
                        (split_text (chunk_size self) (chunk_overlap self) text))
    end.

(** The dict returned by [get_document_stats]; [None] is the empty dict. *)
Record DocumentStats : Type := {
  total_chunks : nat;
  total_characters : nat;
  total_words : nat;
  avg_chunk_size : nat;
  avg_words_per_chunk : nat
}.

Definition get_document_stats (chunks : list ChunkObject)
  : option DocumentStats :=
  match chunks with
  | [] => None
  | _ :: _ =>
      let total_chars := foldr Nat.add 0%nat (map char_count chunks) in
      let total_wds := foldr Nat.add 0%nat (map word_count chunks) in
      Some {| total_chunks := length chunks;
              total_characters := total_chars;
              total_words := total_wds;
              avg_chunk_size := (total_chars / length chunks)%nat;
              avg_words_per_chunk := (total_wds / length chunks)%nat |}
  end.

End DocumentProcessor.
End Docs.

(** ** main.py: the endpoints around the store and the synthesizer *)

(** [round(x, digits)] on a float. *)
Class Rounding `{Floats} : Type := {
  round_float : nat -> Score -> Score
}.

Module App.

(** The answer of an endpoint: its return value or the [HTTPException] it
    raises. *)
Inductive Http (A : Type) : Type :=
| Respond (a : A)
| HTTPException (status_code : Z) (detail : string).
Arguments Respond {A} a.
Arguments HTTPException {A} status_code detail.

(** The directory of uploaded files, and the loop of [delete_document] that
    unlinks the files matching a glob pattern: the directory it leaves, and
    the exception of an unlink that fails. *)
Class UploadDir : Type := {
  Uploads : Type;
  unlink_matching : string -> Uploads -> Result unit * Uploads
}.

Section Endpoints.
Context `{Encoder} `{PyRuntime} `{LLM.Backend} `{!Rounding} `{Docs.DocumentIO}
        `{UploadDir}.
Import PyStr.

Record DocumentInfo : Type := {
  id : string;
  filename : string;
  upload_time : string;
  chunk_count : nat;
  status : string
}.

(** An entry of [chunks_db]: the chunk object merged with its metadata. *)
Definition ChunkRecord : Type := Docs.ChunkObject * Metadata.

Record AppState : Type := {
  documents_db : gmap string DocumentInfo;
  chunks_db : list ChunkRecord;
  vector_store : Store.World;
  llm_service : LLM.LLMService;
  uploads : Uploads
}.

Definition set_vector_store (w : Store.World) (st : AppState) : AppState :=
  {| documents_db := documents_db st; chunks_db := chunks_db st;
     vector_store := w; llm_service := llm_service st;
     uploads := uploads st |}.

(** The batch that [upload_document] hands to the vector store for the
    chunks of a document: the two comprehensions over [chunks]. *)
Definition upload_batch (new_id name path : string)
    (chunks : list Docs.ChunkObject) : list string * list Metadata :=
  (map Docs.content chunks,
   map (fun chunk =>
          {| doc_id := Some new_id;
             chunk_id := Some (Z.of_nat (Docs.chunk_id chunk));
             source := Some name;
             file_path := Some path |}) chunks).

(** One entry of the [sources] of a query response. *)
Record Source : Type := {
  source_name : string;
  source_chunk_id : Z;
  relevance_score : Score;
  content_preview : string
}.

Record QueryResponse : Type := {
  response : string;
  sources : list Source;
  query : string;
  timestamp : string
}.

Definition source_of (found : Store.Found) : Source :=
  let '(chunk_text, metadata, score) := found in
  {| source_name := default "Unknown" (source metadata);
     source_chunk_id := default 0 (chunk_id metadata);
     relevance_score := round_float 3 score;
     content_preview :=
       if (200 <? String.length chunk_text)%nat
       then prefix 200 chunk_text +:+ "..." else chunk_text |}.

(** [query_documents(request)] at the time [now]: the answer, the state
    after it, and the calls made inside the synthesizer. *)
Definition query_documents (st : AppState) (request_query : string)
    (top_k : Z) (now : string)
  : Http QueryResponse * AppState * list LLM.Call :=
  match chunks_db st with
  | [] => (HTTPException 400 "No documents uploaded yet", st, [])
  | _ :: _ =>
      let searched :=
        Store.similarity_search request_query top_k (vector_store st) in
      let st' := set_vector_store searched.2 st in
      match searched.1 with
      | Raise e =>
          (HTTPException 500 ("Error processing query: " +:+ str_exn e),
           st', [])
      | Ok [] =>
          (Respond
             {| response :=
                  "I couldn't find relevant information in the uploaded documents.";
                sources := [];
                query := request_query;
                timestamp := now |},
           st', [])
      | Ok relevant_chunks =>
          let generated :=
            LLM.generate_response (llm_service st') request_query
              relevant_chunks in
          (Respond {| response := generated.2;
                      sources := map source_of relevant_chunks;
                      query := request_query;
                      timestamp := now |},
           st', generated.1)
      end
  end.

Record Deleted : Type := {
  message : string;
  deleted_doc_id : string
}.

(** [delete_document(doc_id)] *)
Definition delete_document (st : AppState) (target : string)
  : Http Deleted * AppState :=
  match documents_db st !! target with
  | None => (HTTPException 404 "Document not found", st)
  | Some doc_info =>
      let kept :=
        List.filter
          (fun chunk : ChunkRecord =>
             negb (bool_decide (doc_id chunk.2 = Some target)))
          (chunks_db st) in
      let removed := unlink_matching (target +:+ "_*") (uploads st) in
      let st' :=
        {| documents_db := delete target (documents_db st);
           chunks_db := kept;
           vector_store := vector_store st;
           llm_service := llm_service st;
           uploads := removed.2 |} in
      match removed.1 with
      | Ok _ =>
          (Respond {| message := "Document " +:+ filename doc_info
                                 +:+ " deleted successfully";
                      deleted_doc_id := target |},
           st')
      | Raise e =>
          (HTTPException 500 ("Error deleting document: " +:+ str_exn e), st')
      end
  end.

End Endpoints.
End App.

(** ** Notions used to state the properties *)

(** A string that is empty or made of whitespace only. *)
Fixpoint blank (s : string) : bool :=
  match s with
  | EmptyString => true
  | String c s' => PyStr.isspace c && blank s'
  end.

(** [s[n:]] for [n >= 0] *)
Fixpoint suffix (n : nat) (s : string) : string :=
  match n, s with
  | O, _ => s
  | S _, EmptyString => EmptyString
  | S n', String _ s' => suffix n' s'
  end.

(** The segments of a chunk: its pieces between full stops, the blank ones
    left out, the others without their outer whitespace. *)
Definition segments (chunk : string) : list string :=
  omap (fun piece => if blank piece then None else Some (PyStr.strip piece))
       (PyStr.split_on "."%char chunk).

(** A mark that ends a sentence: full stop, exclamation mark, question
    mark. *)
Definition sentence_end (c : ascii) : bool :=
  Ascii.eqb c "."%char || Ascii.eqb c "!"%char || Ascii.eqb c "?"%char.

(** The pieces of a string between the characters that [stop] holds of;
    empty pieces are kept. *)
Fixpoint split_where (stop : ascii -> bool) (s : string) : list string :=
  match s with
  | EmptyString => [EmptyString]
  | String c s' =>
      if stop c then EmptyString :: split_where stop s'
      else match split_where stop s' with
           | [] => [String c EmptyString]
           | p :: ps => String c p :: ps
           end
  end.

(** The segments of a chunk in the words of the specification: its pieces
    between sentence-terminating punctuation marks, the blank ones left
    out, the others without their outer whitespace. *)
Definition spec_segments (chunk : string) : list string :=
  omap (fun piece => if blank piece then None else Some (PyStr.strip piece))
       (split_where sentence_end chunk).

(** Some lowercase word of the query is a lowercase word of the segment. *)
Definition shares_word (query segment : string) : Prop :=
  Exists (fun w => w ∈ PyStr.split (PyStr.lower segment))
         (PyStr.split (PyStr.lower query)).

#[export] Instance shares_word_dec query segment :
  Decision (shares_word query segment).
Proof. unfold shares_word. apply _. Defined.


(** [a] is not below [b]: [b <= a]. *)
Definition not_below `{Floats} (a b : Score) : Prop := score_leb b a = true.


(** The order of the scores is total and transitive. *)
Definition score_order `{Floats} : Prop :=
  (forall a b, score_leb a b = true \/ score_leb b a = true) /\
  (forall a b c, score_leb a b = true -> score_leb b c = true ->
                 score_leb a c = true).

(** The encoder returns one row for each text. *)
Definition encoder_rows `{Encoder} : Prop :=
  forall ts, length (encode ts) = length ts.

(** Iterating a set visits each of its elements once. *)
Definition set_iteration `{PyRuntime} : Prop :=
  forall X : gset string, list_of_set X ≡ₚ elements X.

(** The three sequences of a store have the same length. *)
Definition aligned `{Encoder} (s : Store.VectorStore) : Prop :=
  Faiss.ntotal (Store.index s) = Z.of_nat (length (Store.texts s)) /\
  length (Store.texts s) = length (Store.metadata s).

(** An offset that points into the texts of the store. *)
Definition valid_offset `{Encoder} (s : Store.VectorStore) (idx : Z) : bool :=
  (0 <=? idx) && (idx <? Z.of_nat (length (Store.texts s))).


(** What a search reports for one hit of the scan: the stored text and
    metadata at its offset with its score, or nothing when the offset is
    the label [-1] or lies past the texts. *)
Definition reported `{Encoder} (s : Store.VectorStore) (h : Score * Z)
  : option Store.Found :=
  if valid_offset s h.2 then
    match Store.texts s !! Z.to_nat h.2, Store.metadata s !! Z.to_nat h.2 with
    | Some t, Some m => Some (t, m, h.1)
    | _, _ => None
    end
  else None.

(** The path whose write a fault makes fail, and what the fault leaves of
    the files. *)
Definition save_failure `{Encoder} (fault : Store.SaveFault)
    (s : Store.VectorStore) (dk : gmap string Store.File)
  : option (string * gmap string Store.File) :=
  match fault with
  | Store.SaveSucceeds => None
  | Store.WriteIndexFails residue =>
      Some (Store.index_path s,
            partial_alter (fun _ => residue) (Store.index_path s) dk)
  | Store.WriteMetadataFails residue =>
      Some (Store.metadata_path s,
            partial_alter (fun _ => residue) (Store.metadata_path s)
              (<[Store.index_path s := Store.FaissBlob (Store.index s)]> dk))
  end.

(** The store in memory once [add_documents] has appended a batch. *)
Definition grown `{Encoder} (s : Store.VectorStore) (new_texts : list string)
    (metadatas : list Metadata) : Store.VectorStore :=
  Store.set_metadata (Store.metadata s ++ metadatas)
    (Store.set_texts (Store.texts s ++ new_texts)
       (Store.set_index
          {| Faiss.d := Faiss.d (Store.index s);
             Faiss.xb := Faiss.xb (Store.index s)
                         ++ map normalize_L2 (encode new_texts) |} s)).

(** The store in memory after [clear]. *)
Definition cleared `{Encoder} (s : Store.VectorStore) : Store.VectorStore :=
  Store.set_texts []
    (Store.set_metadata []
       (Store.set_index (Faiss.new (Store.dimension s)) s)).

(** [x] occurs in [s] as a run of consecutive characters. *)
Definition substring_of (x s : string) : Prop :=
  exists before after, s = before +:+ x +:+ after.

(** The character [c] occurs in [s]. *)
Fixpoint has_char (c : ascii) (s : string) : bool :=
  match s with
  | EmptyString => false
  | String c' s' => Ascii.eqb c' c || has_char c s'
  end.

(** A request to the backend among the calls of a trace. *)
Definition is_backend_call (c : LLM.Call) : bool :=
  match c with LLM.CallBackend _ => true | _ => false end.

(** The entry of the fallback strategy among the calls of a trace. *)
Definition is_fallback_call (c : LLM.Call) : bool :=
  match c with LLM.CallFallbackResponse => true | _ => false end.

(** A string that does not begin with whitespace. *)
Definition starts_clean (s : string) : Prop :=
  match s with
  | EmptyString => True
  | String c _ => PyStr.isspace c = false
  end.

(** The chunk object made for the chunk at position [i] of the splitter's
    output, when the chunk is not blank. *)
Definition object_of `{Docs.DocumentIO} (i : nat) (chunk : string)
  : option Docs.ChunkObject :=
  if blank chunk then None
  else Some {| Docs.content := PyStr.strip chunk;
               Docs.chunk_id := i;
               Docs.char_count := String.length chunk;
               Docs.word_count := length (PyStr.split chunk) |}.

(** The text a reader gives for a file, by the lowercase suffix of its
    path; [None] for a suffix that is not supported. *)
Definition reader_for `{Docs.DocumentIO} (file_path : string)
  : option (Docs.Outcome string) :=
  let suffix := PyStr.lower (Docs.path_suffix file_path) in
  if bool_decide (suffix = ".pdf")
  then Some (Docs._extract_text_from_pdf (Docs.path_str file_path))
  else if bool_decide (suffix = ".docx")
  then Some (Docs._extract_text_from_docx (Docs.path_str file_path))
  else if bool_decide (suffix = ".txt" \/ suffix = ".md")
  then Some (Docs._extract_text_from_txt (Docs.path_str file_path))
  else None.

(** ** A small instance of the library classes

    Integer scores and vectors, an encoder that maps a text to the pair of
    its length and 1, and no generative backend. The concrete examples
    below are run on it. *)

Module Sample.

#[export] Instance floats : Floats := {|
  Score := Z;
  score_leb := Z.leb;
  format_float := fun digits x =>
    pretty x +:+ "." +:+ String.concat "" (replicate digits "0")
|}.

Definition dot (u v : list Z) : Z :=
  foldr Z.add 0 (zip_with Z.mul u v).

#[export] Instance encoder : Encoder := {|
  Vec := list Z;
  encoder_dim := 2;
  encode := map (fun t => [Z.of_nat (String.length t); 1]);
  normalize_L2 := fun v => v;
  inner := dot;
  pad_score := -1000000
|}.

#[export] Instance runtime : PyRuntime := {|
  list_of_set := elements;
  str_exn := fun e =>
    match e with
    | ValueError msg => msg
    | BackendError detail => detail
    | OSError path => path
    | ReadError path => path
    | IndexError => "list index out of range"
    | AssertionError | AttributeError => ""
    end
|}.

#[export] Instance backend : LLM.Backend := {|
  LLM.chat_completions_create := fun _ => Raise (BackendError "no backend")
|}.

Definition meta (src : string) (cid : Z) : Metadata :=
  {| doc_id := Some src; chunk_id := Some cid; source := Some src;
     file_path := None |}.

Definition no_meta : Metadata :=
  {| doc_id := None; chunk_id := None; source := None; file_path := None |}.

Definition empty_store : Store.VectorStore :=
  {| Store.model_name := "all-MiniLM-L6-v2";
     Store.index_path := "vector_index.faiss";
     Store.metadata_path := "vector_metadata.pkl";
     Store.dimension := 384;
     Store.index := Faiss.new 384;
     Store.metadata := [];
     Store.texts := [] |}.

Definition empty_world : Store.World :=
  {| Store.self := empty_store; Store.disk := ∅; Store.log := [] |}.

(** A store whose index matches the sample encoder, holding two chunks. *)
Definition two_chunks : Store.World :=
  {| Store.self :=
       {| Store.model_name := "sample";
          Store.index_path := "vector_index.faiss";
          Store.metadata_path := "vector_metadata.pkl";
          Store.dimension := 2;
          Store.index := {| Faiss.d := 2; Faiss.xb := [[3; 1]; [5; 1]] |};
          Store.metadata := [meta "doc1" 0; meta "doc2" 0];
          Store.texts := ["abc"; "abcde"] |};
     Store.disk := ∅; Store.log := [] |}.

(** The two chunks with the metadata of the first one only. *)
Definition one_label : Store.World :=
  {| Store.self :=
       Store.set_metadata [meta "doc1" 0] (Store.self two_chunks);
     Store.disk := ∅; Store.log := [] |}.


(** A chunk whose sentences end with exclamation marks. *)
Definition exclaimed_chunk : string :=
  "The sky is blue! Water boils at 100 degrees! Ice melts at 0 degrees!".

(** A disk holding the two chunks, saved under another model name. *)
Definition stale_disk : gmap string Store.File :=
  {[ "vector_index.faiss" :=
       Store.FaissBlob (Store.index (Store.self two_chunks));
     "vector_metadata.pkl" :=
       Store.PickleBlob
         (Store.PDict (Some (Store.metadata (Store.self two_chunks)))
                      (Some (Store.texts (Store.self two_chunks)))
                      (Some "another-model")) ]}.

Definition scenario_c_chunk : string :=
  "The sky is blue. Water boils at 100 degrees. Ice melts at 0 degrees.".
Definition scenario_c_query : string := "At what temperature does ice melt?".

End Sample.

(** ** A small instance of the processor and of the endpoints *)

Module SampleApp.

#[export] Instance rounding : @Rounding Sample.floats := {|
  round_float := fun _ x => x
|}.

(** Four files: a text file with an upper-case suffix, a Markdown file of
    blanks, a PDF that cannot be opened and a program; one path without a
    file. The splitter cuts at full stops. *)
#[export] Instance io : Docs.DocumentIO := {|
  Docs.path_str := fun p => p;
  Docs.path_exists := fun p => negb (String.eqb p "missing.txt");
  Docs.path_suffix := fun p =>
    if String.eqb p "notes.TXT" then ".TXT"
    else if String.eqb p "blank.md" then ".md"
    else if String.eqb p "scan.pdf" then ".pdf"
    else if String.eqb p "missing.txt" then ".txt"
    else ".exe";
  Docs.fitz_pages := fun _ => inl "cannot open broken document";
  Docs.docx_document := fun _ => inl "not a zip file";
  Docs.read_utf8 := fun p =>
    if String.eqb p "blank.md" then inr "   "
    else inr "Ice floats. Stones sink.";
  Docs.split_text := fun _ _ text => PyStr.split_on "."%char text
|}.

#[export] Instance upload_dir : App.UploadDir := {|
  App.Uploads := list string;
  App.unlink_matching := fun _ files => (Ok tt, files)
|}.

(** The two chunks of [Sample.two_chunks] once saved. *)
Definition saved_two_chunks : Store.World :=
  (Store._save_index (H1 := Sample.runtime) Store.SaveSucceeds
     Sample.two_chunks).2.

(** The same store configured with one path for both files. *)
Definition one_path : Store.World :=
  {| Store.self :=
       {| Store.model_name := "sample";
          Store.index_path := "store.bin";
          Store.metadata_path := "store.bin";
          Store.dimension := 2;
          Store.index := Store.index (Store.self Sample.two_chunks);
          Store.metadata := Store.metadata (Store.self Sample.two_chunks);
          Store.texts := Store.texts (Store.self Sample.two_chunks) |};
     Store.disk := ∅; Store.log := [] |}.

Definition chunk_record (text src : string) (cid : nat) : App.ChunkRecord :=
  ({| Docs.content := text; Docs.chunk_id := cid;
      Docs.char_count := String.length text;
      Docs.word_count := length (PyStr.split text) |},
   Sample.meta src (Z.of_nat cid)).

(** An application holding the two documents of [Sample.two_chunks]. *)
Definition two_documents : App.AppState :=
  {| App.documents_db :=
       {[ "doc1" := {| App.id := "doc1"; App.filename := "doc1";
                       App.upload_time := "2024-01-01T00:00:00";
                       App.chunk_count := 1; App.status := "processed" |};
          "doc2" := {| App.id := "doc2"; App.filename := "doc2";
                       App.upload_time := "2024-01-02T00:00:00";
                       App.chunk_count := 1; App.status := "processed" |} ]};
     App.chunks_db := [chunk_record "abc" "doc1" 0;
                       chunk_record "abcde" "doc2" 0];
     App.vector_store := Sample.two_chunks;
     App.llm_service := LLM.LLMService_init None;
     App.uploads := ["doc1_doc1"; "doc2_doc2"] |}.

(** An application holding the first of them only. *)
Definition one_document : App.AppState :=
  {| App.documents_db :=
       {[ "doc1" := {| App.id := "doc1"; App.filename := "doc1";
                       App.upload_time := "2024-01-01T00:00:00";
                       App.chunk_count := 1; App.status := "processed" |} ]};
     App.chunks_db := [chunk_record "abc" "doc1" 0];
     App.vector_store := Sample.two_chunks;
     App.llm_service := LLM.LLMService_init None;
     App.uploads := ["doc1_doc1"] |}.

(** The files of the two chunks, the side table having lost its texts. *)
Definition texts_lost : gmap string Store.File :=
  {[ "vector_index.faiss" :=
       Store.FaissBlob (Store.index (Store.self Sample.two_chunks));
     "vector_metadata.pkl" :=
       Store.PickleBlob
         (Store.PDict (Some (Store.metadata (Store.self Sample.two_chunks)))
                      None (Some "sample")) ]}.

(** An application that has chunk records and a store without vectors. *)
Definition records_without_vectors : App.AppState :=
  App.set_vector_store Sample.empty_world one_document.

(** An application whose store lacks the metadata of its second text. *)
Definition records_without_label : App.AppState :=
  App.set_vector_store Sample.one_label two_documents.

(** An application without any document. *)
Definition no_document : App.AppState :=
  {| App.documents_db := ∅;
     App.chunks_db := [];
     App.vector_store := Sample.two_chunks;
     App.llm_service := LLM.LLMService_init None;
     App.uploads := [] |}.

End SampleApp.

(** * Properties *)

(** ** Strings *)

Section StringFacts.
Import PyStr.

Lemma rstrip_empty s : rstrip s = EmptyString <-> blank s = true.
Proof.
  induction s as [|c s IH]; simpl; [done|].
  destruct (rstrip s) eqn:E.
  - destruct (isspace c); simpl.
    + split; [intros _; by apply IH | done].
    + split; [done | intros [=]].
  - split; [done|]. rewrite andb_true_iff. intros [_ Hb].
    apply IH in Hb. done.
Qed.

Lemma blank_lstrip s : blank (lstrip s) = blank s.
Proof.
  induction s as [|c s IH]; simpl; [done|].
  destruct (isspace c) eqn:E; simpl; [done | by rewrite E].
Qed.

Lemma truthy_strip s : truthy (strip s) = negb (blank s).
Proof.
  unfold strip. rewrite <- (blank_lstrip s).
  destruct (rstrip (lstrip s)) eqn:E; simpl.
  - apply rstrip_empty in E. by rewrite E.
  - destruct (blank (lstrip s)) eqn:Eb; [|done].
    apply rstrip_empty in Eb. congruence.
Qed.

Lemma prefix_suffix n s : prefix n s +:+ suffix n s = s.
Proof.
  revert s; induction n as [|n IH]; intros [|c s]; simpl; try done.
  change (String c (prefix n s +:+ suffix n s) = String c s). by rewrite IH.
Qed.

Lemma prefix_length n s :
  (n <= String.length s)%nat -> String.length (prefix n s) = n.
Proof.
  revert s; induction n as [|n IH]; intros [|c s]; simpl; try done; try lia.
  intros Hle. rewrite IH; lia.
Qed.

End StringFacts.

(** ** Loops that append to a list *)

Lemma fold_left_snoc_map {A B : Type} (f : A -> B) (l : list A) (acc : list B) :
  fold_left (fun parts x => parts ++ [f x]) l acc = acc ++ map f l.
Proof.
  revert acc; induction l as [|x l IH]; intros acc; simpl.
  - by rewrite app_nil_r.
  - rewrite IH. by rewrite <- app_assoc.
Qed.

Lemma fold_left_snoc_filter {A : Type} (b : A -> bool) (P : A -> Prop)
    `{!forall x, Decision (P x)} (l : list A) (acc : list A) :
  (forall x, b x = true <-> P x) ->
  fold_left (fun acc x => if b x then acc ++ [x] else acc) l acc
  = acc ++ filter P l.
Proof.
  intros Hb. revert acc; induction l as [|x l IH]; intros acc; simpl.
  - by rewrite app_nil_r.
  - rewrite IH. destruct (b x) eqn:E.
    + rewrite filter_cons_True; [|by apply Hb]. by rewrite <- app_assoc.
    + rewrite filter_cons_False; [done|]. intros HP. apply Hb in HP. congruence.
Qed.

Lemma enumerate_map {A B : Type} (f : nat -> A -> B) (l : list A) :
  map (fun ic => f ic.1 ic.2) (enumerate l) = imap f l.
Proof.
  unfold enumerate. change (map ?g ?x) with (g <$> x).
  rewrite fmap_imap. by apply imap_ext.
Qed.

Lemma string_app_assoc (a b c : string) : (a +:+ b) +:+ c = a +:+ (b +:+ c).
Proof.
  induction a as [|x a IH]; [done|].
  change (String x ((a +:+ b) +:+ c) = String x (a +:+ (b +:+ c))).
  by rewrite IH.
Qed.

Lemma string_app_nil_r (a : string) : a +:+ "" = a.
Proof.
  induction a as [|x a IH]; [done|].
  change (String x (a +:+ "") = String x a). by rewrite IH.
Qed.

(** Joining pieces that all end in [t] is joining the bare pieces with
    [t] put before the separator, and one [t] at the very end. *)
Lemma join_terminated (sep t : string) (l : list string) :
  PyStr.join sep (map (fun b => b +:+ t) l)
  = PyStr.join (t +:+ sep) l +:+ match l with [] => "" | _ :: _ => t end.
Proof.
  induction l as [|x [|y l] IH]; [done..|].
  change (PyStr.join sep (map (fun b => b +:+ t) (x :: y :: l)))
    with ((x +:+ t) +:+ sep +:+ PyStr.join sep (map (fun b => b +:+ t) (y :: l))).
  change (PyStr.join (t +:+ sep) (x :: y :: l))
    with (x +:+ (t +:+ sep) +:+ PyStr.join (t +:+ sep) (y :: l)).
  rewrite IH. by rewrite !string_app_assoc.
Qed.

(** ** Answer synthesis *)

Section LLMProperties.
Context `{Floats} `{PyRuntime} `{LLM.Backend}.
Import PyStr.

Lemma sentences_of_segments (chunk : string) :
  LLM.sentences_of chunk = segments chunk.
Proof.
  unfold LLM.sentences_of, segments.
  induction (split_on "."%char chunk) as [|p ps IH]; simpl; [done|].
  rewrite truthy_strip. destruct (blank p); simpl; by rewrite IH.
Qed.

Lemma word_sets_meet (query sentence : string) :
  bool_decide (LLM.word_set (lower query) ∩ LLM.word_set (lower sentence) ≠ ∅)
  = true <-> shares_word query sentence.
Proof.
  rewrite bool_decide_eq_true. unfold shares_word, LLM.word_set.
  rewrite Exists_exists. split.
  - intros [w Hw]%set_choose_L. exists w.
    apply elem_of_intersection in Hw as [Hq Hs].
    by rewrite !elem_of_list_to_set in Hq, Hs.
  - intros (w & Hq & Hs) Hempty.
    assert (w ∈ (∅ : gset string)) as Hin; [|set_solver].
    rewrite <- Hempty. apply elem_of_intersection.
    by rewrite !elem_of_list_to_set.
Qed.

Lemma relevant_sentences_filter (query : string) (sentences : list string) :
  LLM.relevant_sentences (LLM.word_set (lower query)) sentences
  = filter (shares_word query) sentences.
Proof.
  unfold LLM.relevant_sentences.
  rewrite (fold_left_snoc_filter _ (shares_word query)); [done|].
  intros s. apply word_sets_meet.
Qed.

(** The sentences the fallback keeps for a query and a top chunk. *)
Lemma fallback_body_kept (query : string) (best_chunk : string)
    (best_metadata : Metadata) (best_score : Score) (others : list LLM.Chunk) :
  LLM.fallback_body query ((best_chunk, best_metadata, best_score) :: others)
  = match filter (shares_word query) (segments best_chunk) with
    | _ :: _ =>
        "Based on the available information:" +:+ nl +:+ nl
        +:+ join ". " (take 3 (filter (shares_word query) (segments best_chunk)))
        +:+ nl +:+ nl +:+ "Source: "
        +:+ default "Unknown document" (source best_metadata)
        +:+ " (Relevance: " +:+ format_float 2 best_score +:+ ")"
    | [] =>
        "I found information related to your query in "
        +:+ default "the document" (source best_metadata) +:+ ", "
        +:+ "but I couldn't extract specific details. Here's what I found:"
        +:+ nl +:+ nl
        +:+ (if (300 <? String.length best_chunk)%nat
             then prefix 300 best_chunk +:+ "..." else best_chunk)
        +:+ nl +:+ nl +:+ "(Relevance: " +:+ format_float 2 best_score +:+ ")"
    end.
Proof.
  unfold LLM.fallback_body.
  by rewrite sentences_of_segments, relevant_sentences_filter.
Qed.

(** C5. With no retrieved result, [generate_response] returns the fixed
    message and enters neither [_prepare_context] nor a strategy: its trace
    of calls is empty. With at least one result, context assembly is entered
    first and a strategy after it. *)
Theorem generate_response_without_results (self : LLM.LLMService) (query : string) :
  LLM.generate_response self query []
  = ([], "I couldn't find relevant information to answer your question.")
  /\ forall (c : LLM.Chunk) (cs : list LLM.Chunk),
       exists strategy_calls answer,
         LLM.generate_response self query (c :: cs)
         = (LLM.CallPrepareContext :: strategy_calls, answer)
         /\ strategy_calls <> [].
Proof.
  split; [done|]. intros c cs.
  unfold LLM.generate_response, LLM.tbind, LLM.enter, LLM.tret.
  destruct (LLM.use_openai self); simpl.
  - unfold LLM._generate_openai_response, LLM.enter, LLM.tret; simpl.
    eexists _, _. split; [reflexivity | done].
  - eexists _, _. split; [reflexivity | done].
Qed.

(** C6. Context assembly renders the first five results and no other, in
    their order: block [i] (counted from 1) is the line
    [[Source i: <source or Unknown>, Chunk <chunk_id or 0>]] followed by the
    raw text on the next line; consecutive blocks are separated by an empty
    line, and the last block ends its line. *)
Theorem prepare_context_renders_first_five (context_chunks : list LLM.Chunk) :
  let shown := take 5 context_chunks in
  let block := fun (i : nat) (c : LLM.Chunk) =>
    "[Source " +:+ pretty (i + 1)%nat +:+ ": "
    +:+ default "Unknown" (source c.1.2) +:+ ", Chunk "
    +:+ pretty (default 0 (chunk_id c.1.2)) +:+ "]" +:+ nl +:+ c.1.1 in
  length shown = (length context_chunks `min` 5)%nat
  /\ shown `prefix_of` context_chunks
  /\ LLM._prepare_context context_chunks
     = join (nl +:+ nl) (imap block shown)
       +:+ match shown with [] => "" | _ :: _ => nl end.
Proof.
  intros shown block. split; [|split].
  - subst shown. rewrite length_take. lia.
  - apply prefix_take.
  - unfold LLM._prepare_context. fold shown.
    rewrite (fold_left_snoc_map (fun ic => LLM.context_block ic.1 ic.2)).
    rewrite app_nil_l, enumerate_map.
    assert (imap LLM.context_block shown
            = map (fun b => b +:+ nl) (imap block shown)) as ->.
    { change (map ?g ?x) with (g <$> x). rewrite fmap_imap.
      apply imap_ext. intros i [[text m] sc] _. subst block. simpl.
      unfold LLM.context_block. by rewrite !string_app_assoc. }
    rewrite join_terminated.
    destruct shown; [done|]. by destruct (imap block (c :: shown)) eqn:E.
Qed.

End LLMProperties.

Section FallbackProperties.
Context `{Floats} `{PyRuntime}.
Import PyStr.

Lemma fallback_response_answer (query context : string)
    (context_chunks : list LLM.Chunk) :
  (LLM._generate_fallback_response query context context_chunks).2
  = LLM.fallback_body query context_chunks
    +:+ LLM.multi_source_note context_chunks.
Proof. done. Qed.

(** A string without the separator is one piece. *)
Lemma split_on_absent (sep : ascii) (s : string) :
  has_char sep s = false -> split_on sep s = [s].
Proof.
  induction s as [|c s IH]; simpl; [done|].
  intros [Hc Hs]%orb_false_elim. by rewrite Hc, IH.
Qed.

(** C4, as the code has it. The fallback works on the top chunk: its
    sentences are the pieces of the text between full stops, blank pieces
    dropped and the others stripped, and no other mark ends a sentence: a
    text without a full stop is one sentence. The sentences kept are
    exactly those that share a lowercase whitespace-delimited word with the
    query, in their order; when there is one, the answer is built from the
    first three, joined with [". "]. On the chunk and query of scenario C
    the kept sentences are the two that share a word with the query, and
    "The sky is blue" is not among them. *)
Theorem fallback_answers_with_matching_sentences
    (query context best_chunk : string) (best_metadata : Metadata)
    (best_score : Score) (others : list LLM.Chunk) :
  let chunks := (best_chunk, best_metadata, best_score) :: others in
  let kept := filter (shares_word query) (segments best_chunk) in
  LLM.sentences_of best_chunk = segments best_chunk
  /\ (has_char "."%char best_chunk = false -> blank best_chunk = false ->
      segments best_chunk = [strip best_chunk])
  /\ LLM.relevant_sentences (LLM.word_set (lower query)) (segments best_chunk)
     = kept
  /\ (kept <> [] ->
      (LLM._generate_fallback_response query context chunks).2
      = "Based on the available information:" +:+ nl +:+ nl
        +:+ join ". " (take 3 kept)
        +:+ nl +:+ nl +:+ "Source: "
        +:+ default "Unknown document" (source best_metadata)
        +:+ " (Relevance: " +:+ format_float 2 best_score +:+ ")"
        +:+ LLM.multi_source_note chunks)
  /\ (let kept_c := filter (shares_word Sample.scenario_c_query)
                           (segments Sample.scenario_c_chunk) in
      kept_c = ["Water boils at 100 degrees"; "Ice melts at 0 degrees"]
      /\ Forall (shares_word Sample.scenario_c_query) kept_c
      /\ "The sky is blue" ∈ segments Sample.scenario_c_chunk
      /\ ("The sky is blue" ∉ kept_c)
      /\ (LLM._generate_fallback_response Sample.scenario_c_query context
            [(Sample.scenario_c_chunk, best_metadata, best_score)]).2
         = "Based on the available information:" +:+ nl +:+ nl
           +:+ "Water boils at 100 degrees. Ice melts at 0 degrees"
           +:+ nl +:+ nl +:+ "Source: "
           +:+ default "Unknown document" (source best_metadata)
           +:+ " (Relevance: " +:+ format_float 2 best_score +:+ ")").
Proof.
  intros chunks kept. split; [apply sentences_of_segments|]. split.
  { intros Hstop Hblank. unfold segments.
    rewrite split_on_absent by done. simpl. by rewrite Hblank. }
  split; [apply relevant_sentences_filter|]. split.
  - intros Hkept. subst chunks.
    rewrite fallback_response_answer, fallback_body_kept. fold kept.
    destruct kept as [|k1 kept']; [done|].
    by rewrite !string_app_assoc.
  - assert (filter (shares_word Sample.scenario_c_query)
                   (segments Sample.scenario_c_chunk)
            = ["Water boils at 100 degrees"; "Ice melts at 0 degrees"]) as Hc
      by (vm_compute; reflexivity).
    cbv zeta. rewrite Hc. split; [done|]. split.
    { rewrite <- Hc. apply Forall_forall. intros s Hs.
      by apply list_elem_of_filter in Hs as [? _]. }
    split; [vm_compute; apply list_elem_of_here|]. split.
    { intros Hin. by repeat (apply elem_of_cons in Hin as [Hin|Hin];
                             [discriminate Hin|]);
      apply elem_of_nil in Hin. }
    rewrite fallback_response_answer, fallback_body_kept, Hc.
    change (LLM.multi_source_note _) with "".
    change (join ". " (take 3 ?l))
      with "Water boils at 100 degrees. Ice melts at 0 degrees".
    by rewrite !string_app_assoc, string_app_nil_r.
Qed.

(** C7. When no sentence of the top chunk shares a word with the query,
    the answer shows the chunk's text itself when it has at most 300
    characters, and its first 300 characters followed by ["..."] when it
    has more. Whether or not a sentence matched, the answer carries the
    source label of the top result (a default wording when the metadata
    has none) and, after it, the score formatted with two decimals. *)
Theorem fallback_excerpt_when_nothing_matches
    (query context best_chunk : string) (best_metadata : Metadata)
    (best_score : Score) (others : list LLM.Chunk) :
  let chunks := (best_chunk, best_metadata, best_score) :: others in
  let answer := (LLM._generate_fallback_response query context chunks).2 in
  let relevance := "(Relevance: " +:+ format_float 2 best_score +:+ ")" in
  (filter (shares_word query) (segments best_chunk) = [] ->
     exists excerpt,
       answer
       = "I found information related to your query in "
         +:+ default "the document" (source best_metadata) +:+ ", "
         +:+ "but I couldn't extract specific details. Here's what I found:"
         +:+ nl +:+ nl +:+ excerpt +:+ nl +:+ nl +:+ relevance
         +:+ LLM.multi_source_note chunks
       /\ ((String.length best_chunk <= 300)%nat -> excerpt = best_chunk)
       /\ ((300 < String.length best_chunk)%nat ->
           exists first rest,
             excerpt = first +:+ "..." /\ String.length first = 300%nat
             /\ best_chunk = first +:+ rest))
  /\ exists before wording between,
       (wording = "the document" \/ wording = "Unknown document")
       /\ answer = before +:+ default wording (source best_metadata) +:+ between
                   +:+ relevance +:+ LLM.multi_source_note chunks.
Proof.
  intros chunks answer relevance.
  assert (answer = LLM.fallback_body query chunks
                   +:+ LLM.multi_source_note chunks) as Hanswer by done.
  subst chunks. rewrite fallback_body_kept in Hanswer. split.
  - intros Hnone. rewrite Hnone in Hanswer.
    exists (if (300 <? String.length best_chunk)%nat
            then prefix 300 best_chunk +:+ "..." else best_chunk).
    split; [subst relevance; by rewrite Hanswer, !string_app_assoc|]. split.
    + intros Hshort. by rewrite (proj2 (Nat.ltb_ge _ _) Hshort).
    + intros Hlong. rewrite (proj2 (Nat.ltb_lt _ _) Hlong).
      exists (prefix 300 best_chunk), (suffix 300 best_chunk).
      split; [done|]. split; [apply prefix_length; lia|].
      by rewrite prefix_suffix.
  - destruct (filter (shares_word query) (segments best_chunk)) as [|k1 kept].
    + exists "I found information related to your query in ",
             "the document",
             (", "
              +:+ "but I couldn't extract specific details. Here's what I found:"
              +:+ nl +:+ nl
              +:+ (if (300 <? String.length best_chunk)%nat
                   then prefix 300 best_chunk +:+ "..." else best_chunk)
              +:+ nl +:+ nl).
      split; [by left|].
      rewrite Hanswer. subst relevance. by rewrite !string_app_assoc.
    + exists ("Based on the available information:" +:+ nl +:+ nl
              +:+ join ". " (take 3 (k1 :: kept)) +:+ nl +:+ nl +:+ "Source: "),
             "Unknown document", " ".
      split; [by right|].
      rewrite Hanswer. subst relevance. by rewrite !string_app_assoc.
Qed.

(** C8. When more than one result is passed and the first three carry
    more than one distinct source label (a result without a source counts as
    "Unknown"), the answer ends with a note that gives the number of
    distinct labels and lists each of them once, separated by [", "]; with
    two distinct labels the note reads "across 2 sources" and names both, in
    one order or the other. *)
Theorem fallback_notes_distinct_sources
    (query context : string) (context_chunks : list LLM.Chunk) :
  let labels := map (fun c : LLM.Chunk => default "Unknown" (source c.1.2))
                    (take 3 context_chunks) in
  let distinct : gset string := list_to_set labels in
  let answer := (LLM._generate_fallback_response query context context_chunks).2 in
  set_iteration ->
  (1 < length context_chunks)%nat ->
  (1 < size distinct)%nat ->
  (exists listed,
     listed ≡ₚ elements distinct
     /\ answer = LLM.fallback_body query context_chunks
                 +:+ nl +:+ nl +:+ "Information was found across "
                 +:+ pretty (size distinct) +:+ " sources: "
                 +:+ join ", " listed)
  /\ forall a b, a <> b -> distinct = {[a; b]} ->
       answer = LLM.fallback_body query context_chunks
                +:+ nl +:+ nl +:+ "Information was found across 2 sources: "
                +:+ a +:+ ", " +:+ b
       \/ answer = LLM.fallback_body query context_chunks
                   +:+ nl +:+ nl +:+ "Information was found across 2 sources: "
                   +:+ b +:+ ", " +:+ a.
Proof.
  intros labels distinct answer Hiter Hmany Hdistinct.
  assert (length (list_of_set distinct) = size distinct) as Hlen.
  { unfold size, set_size. simpl. by rewrite (Hiter distinct). }
  assert (answer = LLM.fallback_body query context_chunks
                   +:+ nl +:+ nl +:+ "Information was found across "
                   +:+ pretty (size distinct) +:+ " sources: "
                   +:+ join ", " (list_of_set distinct)) as Hanswer.
  { subst answer. unfold LLM._generate_fallback_response, LLM.enter, LLM.tret.
    simpl. unfold LLM.multi_source_note.
    rewrite (proj2 (Nat.ltb_lt _ _) Hmany). fold labels. fold distinct.
    rewrite Hlen. by rewrite (proj2 (Nat.ltb_lt _ _) Hdistinct). }
  split; [by exists (list_of_set distinct)|].
  intros a b Hab Hset.
  assert ([a; b] ≡ₚ list_of_set distinct) as Hperm.
  { rewrite (Hiter distinct), Hset.
    rewrite elements_union_singleton by set_solver.
    by rewrite elements_singleton. }
  assert (size distinct = 2%nat) as Hsize.
  { rewrite <- Hlen, <- Hperm. done. }
  rewrite Hsize in Hanswer.
  apply Permutation_length_2_inv in Hperm as [Hl|Hl]; rewrite Hl in Hanswer;
    [left|right]; rewrite Hanswer; reflexivity.
Qed.

End FallbackProperties.

(** ** The vector store *)

Section StoreProperties.
Context `{Encoder} `{PyRuntime}.
Import Faiss Store.

(** Saving never raises and leaves the object in memory as it is. *)
Lemma save_index_self (fault : SaveFault) (w : World) :
  exists w', _save_index fault w = (Ok tt, w') /\ self w' = self w.
Proof.
  unfold _save_index, try_except, write_index, pickle_dump, bind, get_self,
    modify_disk, raise, logger.
  destruct fault; simpl; eexists; (split; [reflexivity | done]).
Qed.

(** What [add_documents] does with a non-empty batch of matching lengths
    when the encoder's dimension is the index's. *)
Lemma add_documents_outcome (fault : SaveFault) (t : string)
    (ts : list string) (metadatas : list Metadata) (w : World) :
  length (t :: ts) = length metadatas ->
  d (index (self w)) = encoder_dim ->
  exists w',
    add_documents fault (t :: ts) metadatas w = (Ok tt, w')
    /\ index (self w')
       = {| d := d (index (self w));
            xb := xb (index (self w)) ++ map normalize_L2 (encode (t :: ts)) |}
    /\ texts (self w') = texts (self w) ++ t :: ts
    /\ metadata (self w') = metadata (self w) ++ metadatas
    /\ dimension (self w') = dimension (self w)
    /\ model_name (self w') = model_name (self w).
Proof.
  intros Hlen Hdim. unfold add_documents.
  rewrite (proj2 (Nat.eqb_eq _ _) Hlen).
  unfold bind, logger, get_self, lift, modify_self, add. simpl.
  rewrite Hdim, Z.eqb_refl.
  match goal with |- context [_save_index fault ?w0] =>
    destruct (save_index_self fault w0) as (w1 & Hsave & Hself) end.
  rewrite Hsave. eexists. split; [reflexivity|].
  simpl. by rewrite Hself.
Qed.

(** C3. With sequences of different lengths, [add_documents] raises the
    [ValueError] of its first check and the store, the files and the log
    are what they were. *)
Theorem add_documents_rejects_mismatch (fault : SaveFault)
    (new_texts : list string) (metadatas : list Metadata) (w : World) :
  length new_texts <> length metadatas ->
  add_documents fault new_texts metadatas w
  = (Raise (ValueError "Number of texts and metadatas must match"), w)
  /\ get_stats (self (add_documents fault new_texts metadatas w).2)
     = get_stats (self w).
Proof.
  intros Hlen. unfold add_documents.
  apply Nat.eqb_neq in Hlen. by rewrite Hlen.
Qed.

(** C2. For sequences of equal length: [add_documents] returns when the
    batch is empty or the encoder's dimension is the index's; and whenever
    it returns, [total_vectors] has grown by exactly [len(texts)], so have
    the texts and the metadata, and a store whose three sequences had the
    same length before has them of the same length after. *)
Theorem add_documents_grows_store (fault : SaveFault)
    (new_texts : list string) (metadatas : list Metadata) (w : World) :
  encoder_rows ->
  length new_texts = length metadatas ->
  (new_texts = [] \/ d (index (self w)) = encoder_dim ->
   exists w', add_documents fault new_texts metadatas w = (Ok tt, w'))
  /\ forall w',
       add_documents fault new_texts metadatas w = (Ok tt, w') ->
       total_vectors (get_stats (self w'))
       = total_vectors (get_stats (self w)) + Z.of_nat (length new_texts)
       /\ total_texts (get_stats (self w'))
          = (total_texts (get_stats (self w)) + length new_texts)%nat
       /\ total_metadata (get_stats (self w'))
          = (total_metadata (get_stats (self w)) + length new_texts)%nat
       /\ (aligned (self w) -> aligned (self w')).
Proof.
  intros Hrows Hlen.
  destruct new_texts as [|t ts].
  { assert (add_documents fault [] metadatas w = (Ok tt, w)) as Hnoop.
    { unfold add_documents. by rewrite Hlen, Nat.eqb_refl. }
    split; [intros _; by exists w|].
    intros w' Hadd. rewrite Hnoop in Hadd. injection Hadd as <-.
    simpl. split; [lia|]. split; [lia|]. split; [lia|done]. }
  destruct (decide (d (index (self w)) = encoder_dim)) as [Hdim|Hdim].
  - destruct (add_documents_outcome fault t ts metadatas w Hlen Hdim)
      as (w1 & Hadd & Hix & Hts & Hms & _).
    split; [intros _; by exists w1|].
    intros w' Hadd'. rewrite Hadd in Hadd'. injection Hadd' as <-.
    unfold get_stats, aligned, ntotal. simpl.
    rewrite Hix, Hts, Hms. simpl xb.
    rewrite !length_app, length_map, Hrows, <- Hlen. simpl length.
    split; [lia|]. split; [lia|]. split; [lia|]. intros [Hn Hm]. split; lia.
  - split; [intros [?|?]; done|].
    intros w' Hadd. exfalso. revert Hadd. unfold add_documents.
    rewrite (proj2 (Nat.eqb_eq _ _) Hlen).
    unfold bind, logger, get_self, lift, modify_self, add. simpl.
    apply Z.eqb_neq in Hdim. rewrite Z.eqb_sym in Hdim. by rewrite Hdim.
Qed.

End StoreProperties.

Section LifecycleProperties.
Context `{Encoder} `{PyRuntime}.
Import Faiss Store.

Lemma remove_saved_self (unlink_fails : string -> bool) (paths : list string)
    (w : World) :
  self (remove_saved unlink_fails paths w).2 = self w.
Proof.
  revert w; induction paths as [|p paths IH]; intros w; simpl; [done|].
  unfold bind at 1. unfold exists_ at 1.
  destruct (bool_decide (is_Some (disk w !! p))).
  - unfold bind at 1. unfold unlink. destruct (unlink_fails p).
    + done.
    + unfold modify_disk. by rewrite IH.
  - unfold bind at 1. unfold ret at 1. by rewrite IH.
Qed.

(** The object in memory after [clear], whether or not removing the files
    went through. *)
Lemma clear_self (unlink_fails : string -> bool) (w : World) :
  self (clear unlink_fails w).2
  = {| model_name := model_name (self w);
       index_path := index_path (self w);
       metadata_path := metadata_path (self w);
       dimension := dimension (self w);
       index := new (dimension (self w));
       metadata := []; texts := [] |}.
Proof.
  unfold clear.
  unfold bind at 1. unfold get_self at 1.
  unfold bind at 1. unfold modify_self at 1.
  unfold bind at 1. unfold modify_self at 1.
  unfold bind at 1. unfold modify_self at 1.
  unfold bind at 1.
  match goal with |- context [remove_saved ?f ?ps ?w0] =>
    pose proof (remove_saved_self f ps w0) as Hself;
    destruct (remove_saved f ps w0) as [[[]|e] w1] end.
  - unfold logger. simpl in *. by rewrite Hself.
  - simpl in *. by rewrite Hself.
Qed.

(** A search on a store without vectors returns the empty list at once. *)
Lemma similarity_search_empty (query : string) (k : Z) (w : World) :
  ntotal (index (self w)) = 0 ->
  similarity_search query k w = (Ok [], w).
Proof.
  intros Hn. unfold similarity_search, bind, get_self. by rewrite Hn.
Qed.

(** A search changes neither the store, nor the files, nor the log. *)
Lemma similarity_search_world (query : string) (k : Z) (w : World) :
  (similarity_search query k w).2 = w.
Proof.
  unfold similarity_search, bind, get_self, lift, ret.
  destruct (ntotal (index (self w)) =? 0); [done|].
  destruct (search _ _ _) as [found|e]; [|done].
  destruct (py_getitem found.1 0); [|done].
  destruct (py_getitem found.2 0); [|done].
  by destruct (format_results _ _ _).
Qed.

(** Calls other than [add_documents] keep a store without vectors so. *)
Lemma run_keeps_empty (ops : list Op) (w : World) :
  ntotal (index (self w)) = 0 -> ntotal (index (self (run ops w))) = 0.
Proof.
  revert w; induction ops as [|o ops IH]; intros w Hn; [done|].
  unfold run. simpl. apply IH. destruct o as [q k| |f]; simpl.
  - by rewrite similarity_search_world.
  - done.
  - by rewrite clear_self.
Qed.

(** C10. [clear] leaves the dimension and the model name reported by
    [get_stats] as they were and sets the three counts to 0; after it, and
    through any calls other than [add_documents], every search returns the
    empty list. *)
Theorem clear_empties_and_keeps_identity (unlink_fails : string -> bool)
    (w : World) :
  let w' := (clear unlink_fails w).2 in
  stats_dimension (get_stats (self w')) = stats_dimension (get_stats (self w))
  /\ stats_model_name (get_stats (self w'))
     = stats_model_name (get_stats (self w))
  /\ total_vectors (get_stats (self w')) = 0
  /\ total_texts (get_stats (self w')) = 0%nat
  /\ total_metadata (get_stats (self w')) = 0%nat
  /\ forall (ops : list Op) (query : string) (k : Z),
       similarity_search query k (run ops w') = (Ok [], run ops w').
Proof.
  intros w'. subst w'. rewrite clear_self. simpl.
  repeat split; try done.
  intros ops query k. apply similarity_search_empty.
  apply run_keeps_empty. by rewrite clear_self.
Qed.

(** Loading never raises. *)
Lemma load_index_returns (w : World) : (_load_index w).1 = Ok tt.
Proof.
  unfold _load_index, try_except.
  match goal with |- context [match ?body w with _ => _ end] =>
    destruct (body w) as [[[]|e] w1] end; done.
Qed.

(** C9. Loading never raises. A store constructed on a disk where the
    index file is missing or is not a readable index, or where the side
    table is missing or is not a readable dict, starts empty. Where both
    are readable and the saved model name differs from the configured one,
    construction succeeds, the stored index, metadata and texts are kept,
    and the log holds the mismatch warning and no error. *)
Theorem load_never_raises (name ipath mpath : string) (dk : gmap string File) :
  let out := VectorStore_init name ipath mpath dk in
  let s := self out.2 in
  (forall w, (_load_index w).1 = Ok tt)
  /\ out.1 = Ok tt
  /\ ((forall ix, dk !! ipath <> Some (FaissBlob ix))
      \/ (forall pm pt pn, dk !! mpath <> Some (PickleBlob (PDict pm pt pn))) ->
      index s = new 384 /\ texts s = [] /\ metadata s = []
      /\ total_vectors (get_stats s) = 0)
  /\ (forall ix ms ts saved,
        dk !! ipath = Some (FaissBlob ix) ->
        dk !! mpath = Some (PickleBlob (PDict (Some ms) (Some ts) (Some saved))) ->
        saved <> name ->
        index s = ix /\ metadata s = ms /\ texts s = ts
        /\ log out.2
           = [(INFO, "Loading embedding model: " +:+ name);
              (WARNING, "Model mismatch: saved=" +:+ saved
                        +:+ ", current=" +:+ name);
              (INFO, "Loaded vector index with " +:+ pretty (ntotal ix)
                     +:+ " vectors")]).
Proof.
  intros out s. split; [apply load_index_returns|]. split.
  { subst out. unfold VectorStore_init, bind, logger.
    apply load_index_returns. }
  subst s out.
  unfold VectorStore_init, _load_index, read_index, pickle_load.
  unfold try_except, bind, logger, get_self, exists_, get_disk, modify_self,
    raise, ret.
  simpl. split.
  - intros Hbad.
    destruct (dk !! ipath) as [[ix|v|]|] eqn:Ei;
      destruct (dk !! mpath) as [[ix'|[pm pt pn|]|]|] eqn:Em;
      simpl; rewrite ?Ei; simpl; rewrite ?Em; simpl; try done.
    destruct Hbad as [Hbad|Hbad]; [by destruct (Hbad ix)|].
    by destruct (Hbad pm pt pn).
  - intros ix ms ts saved Ei Em Hne.
    rewrite Ei, Em. simpl. rewrite Ei. simpl. rewrite Em. simpl.
    rewrite bool_decide_eq_true_2 by done. done.
Qed.

End LifecycleProperties.

Section SearchProperties.
Context `{Encoder} `{PyRuntime}.
Import Faiss Store.

(** *** The scan *)

Lemma insert_hit_Forall (P : Hit -> Prop) (h : Hit) (l : list Hit) :
  Forall P (insert_hit h l) <-> P h /\ Forall P l.
Proof.
  induction l as [|h' l IH]; simpl.
  - rewrite Forall_singleton. split; [by intros ? | by intros [? _]].
  - destruct (score_leb h'.1 h.1).
    + by rewrite Forall_cons.
    + rewrite !Forall_cons, IH. tauto.
Qed.

Lemma insert_hit_length (h : Hit) (l : list Hit) :
  length (insert_hit h l) = S (length l).
Proof.
  induction l as [|h' l IH]; simpl; [done|].
  destruct (score_leb h'.1 h.1); simpl; by rewrite ?IH.
Qed.

Lemma insert_hit_sorted (h : Hit) (l : list Hit) :
  score_order ->
  StronglySorted (fun a b => not_below a.1 b.1) l ->
  StronglySorted (fun a b => not_below a.1 b.1) (insert_hit h l).
Proof.
  intros [Htotal Htrans]. induction l as [|h' l IH]; intros Hs; simpl.
  - repeat constructor.
  - apply StronglySorted_inv in Hs as [Hs Hall].
    destruct (score_leb h'.1 h.1) eqn:E.
    + constructor; [by constructor|]. constructor; [done|].
      eapply Forall_impl; [exact Hall|]. intros x Hx.
      unfold not_below in *. by eapply Htrans.
    + constructor; [by apply IH|]. apply insert_hit_Forall. split; [|done].
      unfold not_below. destruct (Htotal h'.1 h.1) as [Hle|Hle]; congruence.
Qed.

Lemma rank_sorted (hits : list Hit) :
  score_order -> StronglySorted (fun a b => not_below a.1 b.1) (rank hits).
Proof.
  intros Hord. induction hits as [|h hits IH]; simpl; [constructor|].
  by apply insert_hit_sorted.
Qed.

Lemma rank_Forall (P : Hit -> Prop) (hits : list Hit) :
  Forall P (rank hits) <-> Forall P hits.
Proof.
  induction hits as [|h hits IH]; simpl; [done|].
  by rewrite insert_hit_Forall, Forall_cons, IH.
Qed.

Lemma rank_length (hits : list Hit) : length (rank hits) = length hits.
Proof.
  induction hits as [|h hits IH]; simpl; [done|].
  by rewrite insert_hit_length, IH.
Qed.



(** *** The loop over the hits *)

Lemma py_getitem_lookup {A : Type} (l : list A) (i : Z) (x : A) :
  0 <= i -> l !! Z.to_nat i = Some x -> py_getitem l i = Ok x.
Proof.
  intros Hi Hx. unfold py_getitem.
  rewrite (proj2 (Z.ltb_ge i 0) Hi). rewrite (proj2 (Z.ltb_ge i 0) Hi).
  by rewrite Hx.
Qed.

Lemma format_results_reported (s : VectorStore) (hits : list (Score * Z))
    (results : list Found) :
  Forall (fun h => -1 <= h.2) hits ->
  (length (texts s) <= length (metadata s))%nat ->
  format_results s hits results = Ok (results ++ omap (reported s) hits).
Proof.
  intros Hhits Hside. revert results.
  induction Hhits as [|[score idx] hits Hidx _ IH]; intros results; simpl.
  - by rewrite app_nil_r.
  - simpl in Hidx. unfold reported at 1, valid_offset. simpl.
    destruct (idx <? Z.of_nat (length (texts s))) eqn:Elt; simpl.
    + destruct (idx =? -1) eqn:Eneg; simpl.
      * apply Z.eqb_eq in Eneg. subst idx. simpl. apply IH.
      * apply Z.eqb_neq in Eneg. apply Z.ltb_lt in Elt.
        assert (0 <= idx) as Hpos by lia.
        rewrite (proj2 (Z.leb_le 0 idx) Hpos). simpl.
        destruct (lookup_lt_is_Some_2 (texts s) (Z.to_nat idx)) as [t Ht];
          [lia|].
        destruct (lookup_lt_is_Some_2 (metadata s) (Z.to_nat idx)) as [m Hm];
          [lia|].
        rewrite (py_getitem_lookup _ _ _ Hpos Ht).
        rewrite (py_getitem_lookup _ _ _ Hpos Hm).
        rewrite Ht, Hm. rewrite IH. by rewrite <- app_assoc.
    + rewrite andb_false_r. apply IH.
Qed.

Lemma reported_inv (s : VectorStore) (h : Score * Z) (r : Found) :
  reported s h = Some r ->
  r.2 = h.1
  /\ texts s !! Z.to_nat h.2 = Some r.1.1
  /\ metadata s !! Z.to_nat h.2 = Some r.1.2.
Proof.
  unfold reported. intros Hr.
  destruct (valid_offset s h.2); [|done].
  destruct (texts s !! Z.to_nat h.2) as [t|]; [|done].
  destruct (metadata s !! Z.to_nat h.2) as [m|]; [|done].
  by simplify_eq.
Qed.


Lemma reported_stored (s : VectorStore) (hits : list (Score * Z)) :
  Forall (fun r : Found =>
            exists i, texts s !! i = Some r.1.1 /\ metadata s !! i = Some r.1.2)
         (omap (reported s) hits).
Proof.
  apply Forall_forall. intros r Hr.
  apply list_elem_of_omap in Hr as (h & _ & Hr).
  apply reported_inv in Hr as (_ & Ht & Hm).
  by exists (Z.to_nat h.2).
Qed.










End SearchProperties.

(** * Further properties of the code *)

(** ** Persistence of the vector store *)

Section PersistenceProperties.
Context `{Encoder} `{PyRuntime}.
Import Faiss Store.

(** The world after a save that goes through. *)
Lemma save_index_succeeds (w : World) :
  _save_index SaveSucceeds w
  = (Ok tt,
     {| self := self w;
        disk := <[metadata_path (self w) :=
                    PickleBlob (PDict (Some (metadata (self w)))
                                      (Some (texts (self w)))
                                      (Some (model_name (self w))))]>
                (<[index_path (self w) := FaissBlob (index (self w))]> (disk w));
        log := log w ++ [(INFO, "Saved vector index with "
                                +:+ pretty (ntotal (index (self w)))
                                +:+ " vectors")] |}).
Proof. reflexivity. Qed.

(** Construction on a disk that holds a readable index and a complete
    side table. *)
Lemma init_loads (name ipath mpath : string) (dk : gmap string File)
    (ix : IndexFlatIP) (ms : list Metadata) (ts : list string) (saved : string) :
  dk !! ipath = Some (FaissBlob ix) ->
  dk !! mpath = Some (PickleBlob (PDict (Some ms) (Some ts) (Some saved))) ->
  VectorStore_init name ipath mpath dk
  = (Ok tt,
     {| self := {| model_name := name; index_path := ipath;
                   metadata_path := mpath; dimension := 384;
                   index := ix; metadata := ms; texts := ts |};
        disk := dk;
        log := [(INFO, "Loading embedding model: " +:+ name)]
               ++ (if bool_decide (saved ≠ name)
                   then [(WARNING, "Model mismatch: saved=" +:+ saved
                                   +:+ ", current=" +:+ name)]
                   else [])
               ++ [(INFO, "Loaded vector index with " +:+ pretty (ntotal ix)
                          +:+ " vectors")] |}).
Proof.
  intros Ei Em.
  unfold VectorStore_init, _load_index, read_index, pickle_load.
  unfold try_except, bind, logger, get_self, exists_, get_disk, modify_self,
    raise, ret.
  simpl. rewrite Ei, Em. simpl. rewrite Ei. simpl. rewrite Em. simpl.
  by destruct (bool_decide (saved ≠ name)).
Qed.

(** Construction on a disk whose index file exists but is not a readable
    index, the side table being there too. *)
Lemma init_unreadable_index (name ipath mpath : string) (dk : gmap string File) :
  is_Some (dk !! ipath) -> is_Some (dk !! mpath) ->
  (forall ix, dk !! ipath <> Some (FaissBlob ix)) ->
  VectorStore_init name ipath mpath dk
  = (Ok tt,
     {| self := {| model_name := name; index_path := ipath;
                   metadata_path := mpath; dimension := 384;
                   index := new 384; metadata := []; texts := [] |};
        disk := dk;
        log := [(INFO, "Loading embedding model: " +:+ name);
                (ERROR, "Error loading index: " +:+ str_exn (ReadError ipath));
                (INFO, "Starting with fresh index")] |}).
Proof.
  intros [fi Ei] [fm Em] Hbad.
  unfold VectorStore_init, _load_index, read_index, pickle_load.
  unfold try_except, bind, logger, get_self, exists_, get_disk, modify_self,
    raise, ret.
  simpl. rewrite Ei, Em. simpl. rewrite Ei. simpl.
  destruct fi as [ix| |]; [by destruct (Hbad ix) | done..].
Qed.

Lemma format_results_ext (s1 s2 : VectorStore) (hits : list (Score * Z))
    (results : list Found) :
  texts s1 = texts s2 -> metadata s1 = metadata s2 ->
  format_results s1 hits results = format_results s2 hits results.
Proof.
  intros Ht Hm. revert results.
  induction hits as [|[sc idx] hits IH]; intros results; simpl; [done|].
  rewrite Ht, Hm.
  destruct ((idx <? Z.of_nat (length (texts s2))) && negb (idx =? -1)); [|done].
  destruct (py_getitem (texts s2) idx); [|done].
  by destruct (py_getitem (metadata s2) idx).
Qed.

(** What a search returns depends on the index, the texts and the metadata
    only. *)
Lemma similarity_search_ext (query : string) (k : Z) (w1 w2 : World) :
  index (self w1) = index (self w2) ->
  texts (self w1) = texts (self w2) ->
  metadata (self w1) = metadata (self w2) ->
  (similarity_search query k w1).1 = (similarity_search query k w2).1.
Proof.
  intros Hi Ht Hm. unfold similarity_search, bind, get_self, lift, ret.
  rewrite Hi. destruct (ntotal (index (self w2)) =? 0); [done|].
  destruct (search _ _ _) as [found|e]; [|done].
  destruct (py_getitem found.1 0); [|done].
  destruct (py_getitem found.2 0); [|done].
  by rewrite (format_results_ext (self w1) (self w2)).
Qed.

(** X1. Round trip. After a save that goes through, with the index and the
    side table at different paths, a store constructed from the files under
    the same model name holds the same index, texts and metadata, reports
    the same counts, returns the same result for every search, and logs
    neither a warning nor an error. *)
Theorem save_then_load_restores (w : World) :
  index_path (self w) <> metadata_path (self w) ->
  let saved := (_save_index SaveSucceeds w).2 in
  let out := VectorStore_init (model_name (self w)) (index_path (self w))
               (metadata_path (self w)) (disk saved) in
  out.1 = Ok tt
  /\ index (self out.2) = index (self w)
  /\ texts (self out.2) = texts (self w)
  /\ metadata (self out.2) = metadata (self w)
  /\ total_vectors (get_stats (self out.2)) = total_vectors (get_stats (self w))
  /\ stats_model_name (get_stats (self out.2))
     = stats_model_name (get_stats (self w))
  /\ (forall query k,
        (similarity_search query k out.2).1 = (similarity_search query k w).1)
  /\ Forall (fun rec => rec.1 = INFO) (log out.2).
Proof.
  intros Hpaths saved out. subst out saved.
  rewrite save_index_succeeds. cbn [snd disk].
  erewrite init_loads;
    [| by rewrite lookup_insert_ne, lookup_insert_eq
     | by rewrite lookup_insert_eq].
  cbn [fst snd self index texts metadata log].
  rewrite bool_decide_eq_false_2 by (intros Hne; by apply Hne).
  repeat split; try done.
  - intros query k. by apply similarity_search_ext.
  - by repeat constructor.
Qed.

(** X2. When the index and the side table are configured at the same path,
    the side table overwrites the index on every save: a store constructed
    from the files afterwards cannot read the index, logs the error and
    starts empty. *)
Theorem save_to_one_path_loses_store (w : World) :
  index_path (self w) = metadata_path (self w) ->
  let saved := (_save_index SaveSucceeds w).2 in
  let out := VectorStore_init (model_name (self w)) (index_path (self w))
               (metadata_path (self w)) (disk saved) in
  out.1 = Ok tt
  /\ index (self out.2) = new 384
  /\ texts (self out.2) = []
  /\ metadata (self out.2) = []
  /\ (ERROR, "Error loading index: "
             +:+ str_exn (ReadError (index_path (self w)))) ∈ log out.2.
Proof.
  intros Hpaths saved out. subst out saved.
  rewrite save_index_succeeds. cbn [snd disk]. rewrite <- Hpaths.
  rewrite init_unreadable_index.
  - cbn. repeat split; try done. set_solver.
  - rewrite lookup_insert_eq. by eexists.
  - rewrite lookup_insert_eq. by eexists.
  - intros ix. by rewrite lookup_insert_eq.
Qed.

End PersistenceProperties.

Section IngestionProperties.
Context `{Encoder} `{PyRuntime}.
Import Faiss Store.

Lemma save_index_fails (fault : SaveFault) (w : World) (p : string)
    (dk : gmap string File) :
  save_failure fault (self w) (disk w) = Some (p, dk) ->
  _save_index fault w
  = (Ok tt,
     {| self := self w; disk := dk;
        log := log w ++ [(ERROR, "Error saving index: " +:+ str_exn (OSError p))] |}).
Proof.
  destruct fault; simpl; intros Hf; simplify_eq; reflexivity.
Qed.

(** What [add_documents] does when the save fails. *)
Lemma add_documents_failed_save (fault : SaveFault)
    (new_texts : list string) (metadatas : list Metadata) (w : World)
    (p : string) (dk : gmap string File) :
  new_texts <> [] ->
  length new_texts = length metadatas ->
  d (index (self w)) = encoder_dim ->
  save_failure fault (grown (self w) new_texts metadatas) (disk w)
  = Some (p, dk) ->
  add_documents fault new_texts metadatas w
  = (Ok tt,
     {| self := grown (self w) new_texts metadatas;
        disk := dk;
        log := log w
               ++ [(INFO, "Adding " +:+ pretty (length new_texts)
                          +:+ " documents to vector store");
                   (ERROR, "Error saving index: " +:+ str_exn (OSError p));
                   (INFO, "Successfully added " +:+ pretty (length new_texts)
                          +:+ " documents. Total vectors: "
                          +:+ pretty (ntotal (index (self w))
                                      + Z.of_nat (length (encode new_texts))))]
     |}).
Proof.
  intros Hne Hlen Hdim Hfail. destruct new_texts as [|t ts]; [done|].
  unfold add_documents. rewrite (proj2 (Nat.eqb_eq _ _) Hlen).
  unfold bind, logger, get_self, lift, modify_self, add. simpl.
  rewrite Hdim, Z.eqb_refl.
  match goal with |- context [_save_index fault ?w0] =>
    rewrite (save_index_fails fault w0 p dk) end.
  - simpl. unfold grown, ntotal. simpl. rewrite Hdim.
    rewrite <- !app_assoc. simpl.
    rewrite length_app, length_map, Nat2Z.inj_add. done.
  - simpl. unfold grown in Hfail. simpl in Hfail. by rewrite Hdim in Hfail.
Qed.

(** X3. A save that fails does not undo the addition: [add_documents]
    still returns, the store in memory holds the new entries, the log
    carries the error of the save between the two records of the addition,
    and the files are left as the failed write left them (with a failing
    index write the side table is not written at all). *)
Theorem add_documents_keeps_entries_when_save_fails (fault : SaveFault)
    (new_texts : list string) (metadatas : list Metadata) (w : World)
    (p : string) (dk : gmap string File) :
  new_texts <> [] ->
  length new_texts = length metadatas ->
  d (index (self w)) = encoder_dim ->
  save_failure fault (grown (self w) new_texts metadatas) (disk w)
  = Some (p, dk) ->
  add_documents fault new_texts metadatas w
  = (Ok tt,
     {| self := grown (self w) new_texts metadatas;
        disk := dk;
        log := log w
               ++ [(INFO, "Adding " +:+ pretty (length new_texts)
                          +:+ " documents to vector store");
                   (ERROR, "Error saving index: " +:+ str_exn (OSError p));
                   (INFO, "Successfully added " +:+ pretty (length new_texts)
                          +:+ " documents. Total vectors: "
                          +:+ pretty (ntotal (index (self w))
                                      + Z.of_nat (length (encode new_texts))))]
     |}).
Proof. apply add_documents_failed_save. Qed.

(** X4. A torn save. When the index file is written and the write of the
    side table then fails, leaving the side table of an earlier save in
    place, a store constructed from the files holds the new index with the
    old texts and metadata: it has more vectors than texts. *)
Theorem torn_save_reloads_misaligned (new_texts : list string)
    (metadatas : list Metadata) (w : World)
    (old_metadata : list Metadata) (old_texts : list string) (saved : string) :
  new_texts <> [] ->
  length new_texts = length metadatas ->
  d (index (self w)) = encoder_dim ->
  encoder_rows ->
  index_path (self w) <> metadata_path (self w) ->
  disk w !! metadata_path (self w)
  = Some (PickleBlob (PDict (Some old_metadata) (Some old_texts) (Some saved))) ->
  Z.of_nat (length old_texts) = ntotal (index (self w)) ->
  let w' := (add_documents
               (WriteMetadataFails (disk w !! metadata_path (self w)))
               new_texts metadatas w).2 in
  let out := VectorStore_init (model_name (self w)) (index_path (self w))
               (metadata_path (self w)) (disk w') in
  out.1 = Ok tt
  /\ texts (self out.2) = old_texts
  /\ metadata (self out.2) = old_metadata
  /\ total_vectors (get_stats (self out.2))
     = Z.of_nat (total_texts (get_stats (self out.2)))
       + Z.of_nat (length new_texts)
  /\ ~ aligned (self out.2).
Proof.
  intros Hne Hlen Hdim Hrows Hpaths Hold Hcount w' out. subst out w'.
  rewrite (add_documents_failed_save _ _ _ _
             (metadata_path (self w))
             (partial_alter (fun _ => disk w !! metadata_path (self w))
                (metadata_path (self w))
                (<[index_path (self w) :=
                     FaissBlob (index (grown (self w) new_texts metadatas))]>
                   (disk w)))); try done.
  cbn [snd disk].
  rewrite (init_loads _ _ _ _
             (index (grown (self w) new_texts metadatas))
             old_metadata old_texts saved).
  - cbn [fst snd self index texts metadata]. unfold get_stats, aligned, ntotal.
    cbn. unfold ntotal in Hcount.
    rewrite length_app, length_map, Hrows.
    assert (length new_texts <> 0%nat) by (by destruct new_texts).
    repeat split; try done; lia.
  - rewrite lookup_partial_alter_ne by done. by rewrite lookup_insert_eq.
  - by rewrite lookup_partial_alter_eq.
Qed.

(** What [add_documents] does when the index refuses the batch. *)
Lemma add_documents_refused (fault : SaveFault)
    (new_texts : list string) (metadatas : list Metadata) (w : World) :
  new_texts <> [] ->
  length new_texts = length metadatas ->
  d (index (self w)) <> encoder_dim ->
  add_documents fault new_texts metadatas w
  = (Raise AssertionError,
     {| self := self w; disk := disk w;
        log := log w ++ [(INFO, "Adding " +:+ pretty (length new_texts)
                                +:+ " documents to vector store")] |}).
Proof.
  intros Hne Hlen Hdim. destruct new_texts as [|t ts]; [done|].
  unfold add_documents. rewrite (proj2 (Nat.eqb_eq _ _) Hlen).
  unfold bind, logger, get_self, lift, modify_self, add. simpl.
  apply Z.eqb_neq in Hdim. rewrite Z.eqb_sym in Hdim. by rewrite Hdim.
Qed.

(** X5. A batch that the index refuses (the encoder's dimension is not the
    index's) makes [add_documents] raise before anything is stored: the
    store in memory and the files are what they were, and the log has
    gained the announcement of the addition only. *)
Theorem add_documents_dimension_mismatch (fault : SaveFault)
    (new_texts : list string) (metadatas : list Metadata) (w : World) :
  new_texts <> [] ->
  length new_texts = length metadatas ->
  d (index (self w)) <> encoder_dim ->
  add_documents fault new_texts metadatas w
  = (Raise AssertionError,
     {| self := self w; disk := disk w;
        log := log w ++ [(INFO, "Adding " +:+ pretty (length new_texts)
                                +:+ " documents to vector store")] |}).
Proof. apply add_documents_refused. Qed.

(** X6. [add_documents] only appends: when it returns, every text and
    metadata stored before is still at its offset, the new ones follow at
    the next offsets in the order given, and the rows added to the index
    are the normalized rows of the encoder. *)
Theorem add_documents_appends (fault : SaveFault) (new_texts : list string)
    (metadatas : list Metadata) (w w' : World) :
  encoder_rows ->
  aligned (self w) ->
  add_documents fault new_texts metadatas w = (Ok tt, w') ->
  (forall (i : nat) t, texts (self w) !! i = Some t -> texts (self w') !! i = Some t)
  /\ (forall (i : nat) m,
        metadata (self w) !! i = Some m -> metadata (self w') !! i = Some m)
  /\ (forall (i : nat) v,
        xb (index (self w)) !! i = Some v -> xb (index (self w')) !! i = Some v)
  /\ (forall i : nat,
        texts (self w') !! (length (texts (self w)) + i)%nat = new_texts !! i
        /\ metadata (self w') !! (length (texts (self w)) + i)%nat
           = metadatas !! i
        /\ xb (index (self w')) !! (length (texts (self w)) + i)%nat
           = normalize_L2 <$> encode new_texts !! i).
Proof.
  intros Hrows [Hn Hm] Hadd.
  assert (length (xb (index (self w))) = length (texts (self w))) as Hxb.
  { unfold ntotal in Hn. lia. }
  destruct (decide (length new_texts = length metadatas)) as [Hlen|Hlen].
  2:{ unfold add_documents in Hadd.
      by rewrite (proj2 (Nat.eqb_neq _ _) Hlen) in Hadd. }
  destruct new_texts as [|t ts].
  { destruct metadatas; [|done].
    unfold add_documents in Hadd. simpl in Hadd. injection Hadd as <-.
    pose proof (Hrows []) as Hnone. apply nil_length_inv in Hnone.
    rewrite Hnone. repeat split; try done; apply lookup_ge_None_2; lia. }
  destruct (decide (d (index (self w)) = encoder_dim)) as [Hdim|Hdim].
  2:{ by rewrite add_documents_refused in Hadd. }
  destruct (add_documents_outcome fault t ts metadatas w Hlen Hdim)
    as (w1 & Hadd1 & Hix & Hts & Hms & _).
  rewrite Hadd1 in Hadd. injection Hadd as <-.
  rewrite Hix, Hts, Hms. cbn [xb]. split; [|split; [|split]].
  - intros i x Hx. by apply lookup_app_l_Some.
  - intros i x Hx. by apply lookup_app_l_Some.
  - intros i x Hx. by apply lookup_app_l_Some.
  - intros i. split; [|split].
    + rewrite lookup_app_r by lia. f_equal. lia.
    + rewrite Hm. rewrite lookup_app_r by lia. f_equal. lia.
    + rewrite <- Hxb. rewrite lookup_app_r by lia.
      rewrite list_lookup_fmap. do 2 f_equal. lia.
Qed.

End IngestionProperties.

Section ResetProperties.
Context `{Encoder} `{PyRuntime}.
Import Faiss Store.

(** Construction on a disk where one of the two files is missing. *)
Lemma init_missing (name ipath mpath : string) (dk : gmap string File) :
  dk !! ipath = None \/ dk !! mpath = None ->
  VectorStore_init name ipath mpath dk
  = (Ok tt,
     {| self := {| model_name := name; index_path := ipath;
                   metadata_path := mpath; dimension := 384;
                   index := new 384; metadata := []; texts := [] |};
        disk := dk;
        log := [(INFO, "Loading embedding model: " +:+ name);
                (INFO, "No existing index found, starting fresh")] |}).
Proof.
  intros Hmiss.
  unfold VectorStore_init, _load_index, read_index, pickle_load.
  unfold try_except, bind, logger, get_self, exists_, get_disk, modify_self,
    raise, ret.
  simpl. destruct Hmiss as [Hi|Hm].
  - by rewrite Hi.
  - rewrite Hm. by destruct (dk !! ipath).
Qed.

(** X7. When the file system lets the files go, [clear] returns, both
    files are gone from disk whether or not they were there, the log gains
    one record, and a store constructed afterwards finds nothing to load
    and starts empty. *)
Theorem clear_removes_files (unlink_fails : string -> bool) (w : World) :
  (forall p, unlink_fails p = false) ->
  let dk := delete (metadata_path (self w)) (delete (index_path (self w)) (disk w)) in
  clear unlink_fails w
  = (Ok tt, {| self := cleared (self w); disk := dk;
               log := log w ++ [(INFO, "Cleared vector store")] |})
  /\ dk !! index_path (self w) = None
  /\ dk !! metadata_path (self w) = None
  /\ forall name,
       VectorStore_init name (index_path (self w)) (metadata_path (self w)) dk
       = (Ok tt,
          {| self := {| model_name := name;
                        index_path := index_path (self w);
                        metadata_path := metadata_path (self w);
                        dimension := 384; index := new 384;
                        metadata := []; texts := [] |};
             disk := dk;
             log := [(INFO, "Loading embedding model: " +:+ name);
                     (INFO, "No existing index found, starting fresh")] |}).
Proof.
  intros Hok dk.
  assert (dk !! metadata_path (self w) = None) as Hm.
  { subst dk. apply lookup_delete_eq. }
  split; [|split; [|split]]; [| |done|].
  - unfold clear, remove_saved, unlink.
    unfold bind, get_self, modify_self, exists_, modify_disk, logger, raise, ret.
    simpl. rewrite !Hok.
    destruct (disk w !! index_path (self w)) as [fi|] eqn:Ei; simpl.
    + destruct (delete (index_path (self w)) (disk w) !! metadata_path (self w))
        as [fm|] eqn:Em; simpl; [done|].
      subst dk. by rewrite (delete_id _ _ Em).
    + destruct (disk w !! metadata_path (self w)) as [fm|] eqn:Em; simpl.
      * subst dk. by rewrite (delete_id _ _ Ei).
      * subst dk. by rewrite (delete_id _ _ Ei), (delete_id _ _ Em).
  - subst dk. destruct (decide (index_path (self w) = metadata_path (self w)))
      as [->|Hne]; [apply lookup_delete_eq|].
    rewrite lookup_delete_ne by done. apply lookup_delete_eq.
  - intros name. apply init_missing. by right.
Qed.

(** X8. When the index file is there and the file system refuses to remove
    it, [clear] raises with the store in memory already emptied, the side
    table not touched and nothing logged: the entries are gone from memory
    but still on disk. *)
Theorem clear_fails_after_reset (unlink_fails : string -> bool) (w : World) :
  is_Some (disk w !! index_path (self w)) ->
  unlink_fails (index_path (self w)) = true ->
  clear unlink_fails w
  = (Raise (OSError (index_path (self w))),
     {| self := cleared (self w); disk := disk w; log := log w |}).
Proof.
  intros [fi Ei] Hfail.
  unfold clear, remove_saved, unlink.
  unfold bind, get_self, modify_self, exists_, modify_disk, logger, raise, ret.
  simpl. by rewrite Ei, Hfail.
Qed.

(** X9. A search is read-only: it leaves the store, the files and the log
    as they are, so that a search gives the same answer however many
    searches came before it. *)
Theorem similarity_search_read_only (query : string) (k : Z) (w : World) :
  (similarity_search query k w).2 = w
  /\ forall (earlier : list (string * Z)),
       similarity_search query k
         (fold_left (fun w' qk => (similarity_search qk.1 qk.2 w').2) earlier w)
       = similarity_search query k w.
Proof.
  split; [apply similarity_search_world|].
  intros earlier. f_equal.
  induction earlier as [|[q' k'] earlier IH] using rev_ind; [done|].
  rewrite fold_left_app. simpl. by rewrite similarity_search_world.
Qed.

End ResetProperties.

(** ** Exactness of the search *)

Section ExactSearchProperties.
Context `{Encoder} `{PyRuntime}.
Import Faiss Store.

Lemma insert_hit_perm (h : Hit) (l : list Hit) : insert_hit h l ≡ₚ h :: l.
Proof.
  induction l as [|h' l IH]; simpl; [done|].
  destruct (score_leb h'.1 h.1); [done|].
  rewrite IH. apply Permutation_swap.
Qed.

Lemma rank_perm (hits : list Hit) : rank hits ≡ₚ hits.
Proof.
  induction hits as [|h hits IH]; simpl; [done|].
  by rewrite insert_hit_perm, IH.
Qed.

(** The rows of an index scored against a query, with their offsets. *)
Lemma scored_rows (ix : IndexFlatIP) (q : Vec) (h : Hit) :
  h ∈ imap (fun i v => (inner q v, Z.of_nat i)) (xb ix) <->
  exists (i : nat) v, xb ix !! i = Some v /\ h = (inner q v, Z.of_nat i).
Proof.
  split.
  - intros Hh. apply elem_of_lookup_imap_1 in Hh as (i & v & -> & Hi). eauto.
  - intros (i & v & Hi & ->).
    by apply (elem_of_lookup_imap_2 (fun i v => (inner q v, Z.of_nat i))).
Qed.

(** With no more neighbours asked for than rows stored, the scan is the
    first [k] of the ranked rows. *)
Lemma scan_no_padding (ix : IndexFlatIP) (q : Vec) (k : nat) :
  (k <= length (xb ix))%nat ->
  scan ix q k
  = take k (rank (imap (fun i v => (inner q v, Z.of_nat i)) (xb ix))).
Proof.
  intros Hk. unfold scan.
  rewrite length_take, rank_length, length_imap.
  replace (k - k `min` length (xb ix))%nat with 0%nat by lia.
  simpl. by rewrite app_nil_r.
Qed.

(** What a search on a store with vectors computes. *)
Lemma similarity_search_hits (query : string) (k : Z) (w : World) (q0 : Vec) :
  encode [query] = [q0] ->
  ntotal (index (self w)) <> 0 ->
  1 <= k ->
  d (index (self w)) = encoder_dim ->
  (length (texts (self w)) <= length (metadata (self w)))%nat ->
  similarity_search query k w
  = (Ok (omap (reported (self w))
           (take (Z.to_nat (Z.min k (ntotal (index (self w)))))
              (rank (imap (fun i v => (inner (normalize_L2 q0) v, Z.of_nat i))
                          (xb (index (self w))))))),
     w).
Proof.
  intros Hq Hn Hk Hdim Hside.
  unfold similarity_search, bind, get_self.
  rewrite (proj2 (Z.eqb_neq _ _) Hn).
  unfold lift, search. simpl cols. rewrite Hdim, Z.eqb_refl. simpl negb.
  cbv iota.
  assert (0 < Z.min k (ntotal (index (self w)))) as Hkpos.
  { unfold ntotal in *. lia. }
  rewrite (proj2 (Z.ltb_lt _ _) Hkpos). simpl negb. cbv iota.
  simpl rows. rewrite Hq. simpl. unfold py_getitem. simpl.
  rewrite scan_no_padding by (unfold ntotal; lia).
  match goal with |- context [zip (map fst ?l) (map snd ?l)] =>
    set (hits := l);
    assert (zip (map fst hits) (map snd hits) = hits) as ->
  end.
  { clear. induction hits as [|[a b] l IH]; simpl; by rewrite ?IH. }
  rewrite format_results_reported; [done| |done].
  subst hits. apply Forall_take, rank_Forall, Forall_forall.
  intros h (i & v & _ & ->)%scored_rows. simpl. lia.
Qed.

(** On a store whose sequences are aligned, a hit on a stored row is
    reported with the text and metadata of that row. *)
Lemma reported_aligned (s : VectorStore) (i : nat) (v : Vec) (sc : Score) :
  aligned s -> xb (index s) !! i = Some v ->
  exists t m, texts s !! i = Some t /\ metadata s !! i = Some m
              /\ reported s (sc, Z.of_nat i) = Some (t, m, sc).
Proof.
  intros [Hn Hm] Hv. apply lookup_lt_Some in Hv.
  unfold ntotal in Hn.
  destruct (lookup_lt_is_Some_2 (texts s) i) as [t Ht]; [lia|].
  destruct (lookup_lt_is_Some_2 (metadata s) i) as [m Hmi]; [lia|].
  exists t, m. split; [done|]. split; [done|].
  unfold reported, valid_offset. simpl.
  rewrite (proj2 (Z.leb_le _ _)) by lia.
  rewrite (proj2 (Z.ltb_lt _ _)) by lia.
  simpl. by rewrite Nat2Z.id, Ht, Hmi.
Qed.

Lemma omap_length_all {A B : Type} (f : A -> option B) (l : list A) :
  Forall (fun x => is_Some (f x)) l -> length (omap f l) = length l.
Proof.
  induction 1 as [|x l [y Hy] _ IH]; simpl; [done|].
  change (list_omap A B f l) with (omap f l). rewrite Hy. simpl. by rewrite IH.
Qed.

(** X10. On a store whose three sequences are aligned and whose index has
    the encoder's dimension, a search for [k >= 1] returns exactly
    [min(k, total_vectors)] results, and each result is the text and the
    metadata stored at one offset together with the inner product of the
    normalized query row and the vector stored at that same offset. *)
Theorem similarity_search_exact_count (query : string) (k : Z) (w : World) :
  encoder_rows ->
  aligned (self w) ->
  ntotal (index (self w)) <> 0 ->
  1 <= k ->
  d (index (self w)) = encoder_dim ->
  exists q0 rs,
    encode [query] = [q0]
    /\ similarity_search query k w = (Ok rs, w)
    /\ Z.of_nat (length rs) = Z.min k (total_vectors (get_stats (self w)))
    /\ Forall (fun r : Found =>
                 exists (i : nat) v,
                   xb (index (self w)) !! i = Some v
                   /\ texts (self w) !! i = Some r.1.1
                   /\ metadata (self w) !! i = Some r.1.2
                   /\ r.2 = inner (normalize_L2 q0) v) rs.
Proof.
  intros Hrows Hal Hn Hk Hdim.
  pose proof (Hrows [query]) as Hone.
  destruct (encode [query]) as [|q0 [|q1 qs]] eqn:Hq; simpl in Hone; try done.
  exists q0. eexists. split; [done|].
  split; [apply (similarity_search_hits query k w q0); try done;
          destruct Hal as [_ Hm]; lia|].
  set (hits := take _ _).
  assert (Forall (fun h : Hit => exists (i : nat) v,
                    xb (index (self w)) !! i = Some v
                    /\ h = (inner (normalize_L2 q0) v, Z.of_nat i)) hits)
    as Hhits.
  { subst hits. apply Forall_take, rank_Forall, Forall_forall.
    intros h Hh. by apply scored_rows. }
  split.
  - rewrite omap_length_all.
    + subst hits. pose proof rank_length as Hrank.
      rewrite length_take, Hrank, length_imap.
      simpl. unfold ntotal in *. lia.
    + eapply Forall_impl; [exact Hhits|]. intros h (i & v & Hv & ->).
      destruct (reported_aligned (self w) i v (inner (normalize_L2 q0) v) Hal Hv)
        as (t & m & _ & _ & Hr). by rewrite Hr.
  - apply Forall_forall. intros r Hr.
    apply list_elem_of_omap in Hr as (h & Hh & Hr).
    rewrite Forall_forall in Hhits.
    destruct (Hhits h Hh) as (i & v & Hv & ->).
    destruct (reported_aligned (self w) i v (inner (normalize_L2 q0) v) Hal Hv)
      as (t & m & Ht & Hm & Hr').
    rewrite Hr' in Hr. injection Hr as <-. by exists i, v.
Qed.

(** The texts and metadata reported for the rows of an aligned store taken
    in storage order, from offset [j] on. *)
Lemma reported_in_order (s : VectorStore) (q : Vec) (j : nat) (rest : list Vec) :
  aligned s ->
  drop j (xb (index s)) = rest ->
  fst <$> omap (reported s)
            (imap (fun i v => (inner q v, Z.of_nat (j + i))) rest)
  = drop j (zip (texts s) (metadata s)).
Proof.
  intros Hal. revert j. induction rest as [|v rest IH]; intros j Hdrop.
  - simpl. symmetry. apply drop_ge.
    assert (length (drop j (xb (index s))) = 0%nat) as Hlen by by rewrite Hdrop.
    rewrite length_drop in Hlen. destruct Hal as [Hn Hm]. unfold ntotal in Hn.
    rewrite length_zip_with. lia.
  - assert (xb (index s) !! j = Some v) as Hv.
    { rewrite <- (Nat.add_0_r j), <- lookup_drop. by rewrite Hdrop. }
    destruct (reported_aligned s j v (inner q v) Hal Hv)
      as (t & m & Ht & Hm & Hr).
    rewrite imap_cons. simpl. rewrite Nat.add_0_r.
    change (list_omap _ _ ?f ?l) with (omap f l). rewrite Hr. simpl.
    rewrite (drop_S _ (t, m) j).
    2:{ rewrite lookup_zip_with. by rewrite Ht, Hm. }
    f_equal. rewrite <- (IH (S j)).
    + do 2 f_equal. apply imap_ext. intros i x _. simpl. do 2 f_equal. lia.
    + rewrite <- (Nat.add_1_r j), <- drop_drop, Hdrop. done.
Qed.

(** X11. Asked for at least as many neighbours as there are vectors, a
    search on an aligned store returns every stored entry exactly once:
    the texts with their metadata, in the order of the results, are a
    rearrangement of the stored ones. *)
Theorem similarity_search_returns_all (query : string) (k : Z) (w : World) :
  encoder_rows ->
  aligned (self w) ->
  ntotal (index (self w)) <> 0 ->
  ntotal (index (self w)) <= k ->
  d (index (self w)) = encoder_dim ->
  exists rs,
    similarity_search query k w = (Ok rs, w)
    /\ fst <$> rs ≡ₚ zip (texts (self w)) (metadata (self w)).
Proof.
  intros Hrows Hal Hn Hk Hdim.
  pose proof (Hrows [query]) as Hone.
  destruct (encode [query]) as [|q0 [|q1 qs]] eqn:Hq; simpl in Hone; try done.
  eexists. split.
  { apply (similarity_search_hits query k w q0); try done.
    - unfold ntotal in *. lia.
    - destruct Hal as [_ Hm]; lia. }
  pose proof rank_length as Hrank.
  rewrite take_ge by (rewrite Hrank, length_imap; unfold ntotal in *; lia).
  rewrite rank_perm.
  rewrite <- (drop_0 (zip _ _)).
  rewrite <- (reported_in_order (self w) (normalize_L2 q0) 0 _ Hal eq_refl).
  done.
Qed.

(** X12. Best first. With a total and transitive order on the scores, no
    stored vector has a higher inner product with the normalized query
    than the first result of a search on an aligned store. *)
Theorem similarity_search_best_first (query : string) (k : Z) (w : World) :
  score_order ->
  encoder_rows ->
  aligned (self w) ->
  ntotal (index (self w)) <> 0 ->
  1 <= k ->
  d (index (self w)) = encoder_dim ->
  exists q0 r rs,
    encode [query] = [q0]
    /\ similarity_search query k w = (Ok (r :: rs), w)
    /\ forall v, v ∈ xb (index (self w)) ->
                 not_below r.2 (inner (normalize_L2 q0) v).
Proof.
  intros Hord Hrows Hal Hn Hk Hdim.
  pose proof (Hrows [query]) as Hone.
  destruct (encode [query]) as [|q0 [|q1 qs]] eqn:Hq; simpl in Hone; try done.
  exists q0.
  rewrite (similarity_search_hits query k w q0); try done;
    [|destruct Hal as [_ Hm]; lia].
  set (scored := imap _ _).
  pose proof (rank_sorted scored Hord) as Hsorted.
  pose proof (rank_perm scored) as Hperm.
  destruct (rank scored) as [|h0 ranked] eqn:Hrank.
  { apply Permutation_nil_l in Hperm. subst scored.
    apply (f_equal length) in Hperm. rewrite length_imap in Hperm.
    unfold ntotal in Hn. simpl in Hperm. lia. }
  assert (h0 ∈ scored) as Hh0 by (rewrite <- Hperm; left).
  apply scored_rows in Hh0 as (i0 & v0 & Hv0 & ->).
  destruct (reported_aligned (self w) i0 v0 (inner (normalize_L2 q0) v0) Hal Hv0)
    as (t & m & _ & _ & Hr).
  destruct (Z.to_nat (Z.min k (ntotal (index (self w))))) as [|k'] eqn:Hk'.
  { unfold ntotal in *. lia. }
  simpl firstn. cbn [take]. simpl.
  change (list_omap _ _ ?f ?l) with (omap f l). rewrite Hr.
  eexists _, _. split; [done|]. split; [done|].
  intros v Hv. apply list_elem_of_lookup in Hv as [i Hv]. simpl.
  assert ((inner (normalize_L2 q0) v, Z.of_nat i) ∈ scored) as Hin.
  { apply scored_rows. eauto. }
  rewrite <- Hperm in Hin. apply StronglySorted_inv in Hsorted as [_ Hall].
  apply elem_of_cons in Hin as [Heq|Hin].
  - injection Heq as -> _. unfold not_below.
    destruct Hord as [Htotal _]. by destruct (Htotal (inner (normalize_L2 q0) v0)
                                                (inner (normalize_L2 q0) v0)).
  - rewrite Forall_forall in Hall. by apply (Hall _ Hin).
Qed.

End ExactSearchProperties.

(** ** Strategies of the answer synthesis *)

Section StrategyProperties.
Context `{Floats} `{PyRuntime} `{LLM.Backend}.
Import PyStr.

(** X13. Per call, [generate_response] sends exactly one request to the
    backend when a backend is configured and something was retrieved, and
    none otherwise; the request never comes together with the fallback,
    and the fallback is entered exactly when there is no backend and
    something was retrieved. *)
Theorem generate_response_backend_requests (self : LLM.LLMService)
    (query : string) (context_chunks : list LLM.Chunk) :
  let calls := (LLM.generate_response self query context_chunks).1 in
  length (List.filter is_backend_call calls)
  = (if LLM.use_openai self && bool_decide (context_chunks <> [])
     then 1 else 0)%nat
  /\ length (List.filter is_fallback_call calls)
     = (if negb (LLM.use_openai self) && bool_decide (context_chunks <> [])
        then 1 else 0)%nat.
Proof.
  destruct context_chunks as [|c cs]; simpl.
  - by rewrite !andb_false_r.
  - unfold LLM.tbind, LLM.enter, LLM.tret. simpl.
    by destruct (LLM.use_openai self).
Qed.

End StrategyProperties.

Section FallbackExtraProperties.
Context `{Floats} `{PyRuntime}.
Import PyStr.

Lemma fallback_body_head (query : string) (context_chunks : list LLM.Chunk) :
  LLM.fallback_body query (take 3 context_chunks)
  = LLM.fallback_body query context_chunks.
Proof. by destruct context_chunks as [|[[t m] sc] cs]. Qed.

Lemma multi_source_note_take (context_chunks : list LLM.Chunk) :
  LLM.multi_source_note (take 3 context_chunks)
  = LLM.multi_source_note context_chunks.
Proof.
  unfold LLM.multi_source_note. rewrite take_take, Nat.min_id.
  assert ((1 <? length (take 3 context_chunks))%nat
          = (1 <? length context_chunks)%nat) as ->; [|done].
  rewrite length_take.
  destruct (Nat.ltb_spec 1 (length context_chunks));
    [apply Nat.ltb_lt | apply Nat.ltb_ge]; lia.
Qed.

(** X14. The fallback answer is made from the first three results only,
    and never from the assembled context: results after the third and the
    context string passed in have no influence on it. *)
Theorem fallback_uses_first_three_only (query context context' : string)
    (context_chunks : list LLM.Chunk) :
  LLM._generate_fallback_response query context context_chunks
  = LLM._generate_fallback_response query context' (take 3 context_chunks).
Proof.
  unfold LLM._generate_fallback_response.
  by rewrite fallback_body_head, multi_source_note_take.
Qed.

Lemma lower_char_idemp (c : ascii) : lower_char (lower_char c) = lower_char c.
Proof. by destruct c as [[] [] [] [] [] [] [] []]. Qed.

Lemma lower_idemp (s : string) : lower (lower s) = lower s.
Proof.
  induction s as [|c s IH]; simpl; [done|]. by rewrite lower_char_idemp, IH.
Qed.

(** X15. The fallback does not see the letter case of the query: two
    queries with the same lowercase form get the same answer, and so do a
    query and its lowercase form. *)
Theorem fallback_ignores_query_case (query query' context : string)
    (context_chunks : list LLM.Chunk) :
  (lower query = lower query' ->
   LLM._generate_fallback_response query context context_chunks
   = LLM._generate_fallback_response query' context context_chunks)
  /\ LLM._generate_fallback_response (lower query) context context_chunks
     = LLM._generate_fallback_response query context context_chunks.
Proof.
  assert (forall q q', lower q = lower q' ->
            LLM._generate_fallback_response q context context_chunks
            = LLM._generate_fallback_response q' context context_chunks) as Hcase.
  { intros q q' Hq. unfold LLM._generate_fallback_response, LLM.fallback_body.
    by rewrite Hq. }
  split; [apply Hcase|]. apply Hcase, lower_idemp.
Qed.

End FallbackExtraProperties.

(** ** What the fallback extracts *)

Section ExtractionFacts.
Import PyStr.

Lemma substring_of_refl (s : string) : substring_of s s.
Proof. exists "", "". by rewrite string_app_nil_r. Qed.

Lemma substring_of_trans (a b c : string) :
  substring_of a b -> substring_of b c -> substring_of a c.
Proof.
  intros (p1 & q1 & ->) (p2 & q2 & ->).
  exists (p2 +:+ p1), (q1 +:+ q2). by rewrite !string_app_assoc.
Qed.

Lemma substring_of_cons (c : ascii) (x s : string) :
  substring_of x s -> substring_of x (String c s).
Proof. intros (p & q & ->). by exists (String c p), q. Qed.

Lemma has_char_app (c : ascii) (a b : string) :
  has_char c (a +:+ b) = has_char c a || has_char c b.
Proof.
  induction a as [|x a IH]; [done|].
  change (has_char c (String x (a +:+ b))
          = has_char c (String x a) || has_char c b).
  simpl. by rewrite IH, orb_assoc.
Qed.

Lemma has_char_substring (c : ascii) (x s : string) :
  substring_of x s -> has_char c s = false -> has_char c x = false.
Proof.
  intros (p & q & ->). rewrite !has_char_app.
  intros Hs. apply orb_false_elim in Hs as [_ Hs].
  by apply orb_false_elim in Hs as [Hs _].
Qed.

(** The first piece of a split is the start of the string. *)
Lemma split_on_head (sep : ascii) (s p : string) (ps : list string) :
  split_on sep s = p :: ps -> exists rest, s = p +:+ rest.
Proof.
  revert p ps. induction s as [|c s IH]; intros p ps; simpl.
  - intros [= <- <-]. by exists "".
  - destruct (Ascii.eqb c sep).
    + intros [= <- <-]. by exists (String c s).
    + destruct (split_on sep s) as [|p0 ps0] eqn:E.
      * intros [= <- <-]. exists s. done.
      * intros [= <- <-]. destruct (IH p0 ps0 eq_refl) as [rest ->].
        by exists rest.
Qed.

Lemma split_on_nonempty (sep : ascii) (s : string) : split_on sep s <> [].
Proof.
  destruct s as [|c s]; simpl; [done|].
  destruct (Ascii.eqb c sep); [done|]. by destruct (split_on sep s).
Qed.

(** Every piece of a split is a run of the string without the separator. *)
Lemma split_on_pieces (sep : ascii) (s p : string) :
  p ∈ split_on sep s -> substring_of p s /\ has_char sep p = false.
Proof.
  revert p. induction s as [|c s IH]; intros p; simpl.
  - intros ->%list_elem_of_singleton. split; [apply substring_of_refl | done].
  - destruct (Ascii.eqb c sep) eqn:Ec.
    + intros [->|Hp]%elem_of_cons.
      * split; [|done]. by exists "", (String c s).
      * destruct (IH p Hp) as [Hsub Hno].
        split; [by apply substring_of_cons | done].
    + destruct (split_on sep s) as [|p0 ps0] eqn:E;
        [by destruct (split_on_nonempty sep s)|].
      intros [->|Hp]%elem_of_cons.
      * destruct (split_on_head sep s p0 ps0 E) as [rest ->].
        destruct (IH p0) as [_ Hno]; [left|].
        split; [by exists "", rest|]. simpl. by rewrite Ec, Hno.
      * destruct (IH p) as [Hsub Hno]; [by right|].
        split; [by apply substring_of_cons | done].
Qed.

Lemma lstrip_suffix (s : string) : exists before, s = before +:+ lstrip s.
Proof.
  induction s as [|c s [before IH]]; simpl; [by exists ""|].
  destruct (isspace c); [|by exists ""].
  exists (String c before). by rewrite IH at 1.
Qed.

Lemma rstrip_prefix (s : string) : exists after, s = rstrip s +:+ after.
Proof.
  induction s as [|c s [after IH]]; simpl; [by exists ""|].
  destruct (rstrip s) as [|a r] eqn:E.
  - destruct (isspace c); [by exists (String c s)|].
    exists s. done.
  - exists after. by rewrite IH at 1.
Qed.

Lemma strip_substring (s : string) : substring_of (strip s) s.
Proof.
  unfold strip. destruct (lstrip_suffix s) as [before Hb].
  destruct (rstrip_prefix (lstrip s)) as [after Ha].
  exists before, after. by rewrite <- Ha.
Qed.

Lemma lstrip_starts_clean (s : string) : starts_clean (lstrip s).
Proof.
  induction s as [|c s IH]; simpl; [done|].
  by destruct (isspace c) eqn:E.
Qed.

Lemma lstrip_clean (s : string) : starts_clean s -> lstrip s = s.
Proof. destruct s as [|c s]; simpl; [done|]. by intros ->. Qed.

Lemma rstrip_starts_clean (s : string) : starts_clean s -> starts_clean (rstrip s).
Proof.
  destruct s as [|c s]; simpl; [done|]. intros Hc.
  destruct (rstrip s); by rewrite ?Hc.
Qed.

Lemma rstrip_idemp (s : string) : rstrip (rstrip s) = rstrip s.
Proof.
  induction s as [|c s IH]; simpl; [done|].
  destruct (rstrip s) as [|a r] eqn:E.
  - destruct (isspace c) eqn:Ec; simpl; [done|]. by rewrite Ec.
  - change (rstrip (String c (String a r)))
      with (match rstrip (String a r) with
            | EmptyString => if isspace c then EmptyString
                             else String c EmptyString
            | r' => String c r'
            end).
    by rewrite IH.
Qed.

Lemma strip_idemp (s : string) : strip (strip s) = strip s.
Proof.
  unfold strip.
  rewrite (lstrip_clean (rstrip (lstrip s)))
    by apply rstrip_starts_clean, lstrip_starts_clean.
  apply rstrip_idemp.
Qed.

Lemma strip_not_blank (s : string) : blank s = false -> blank (strip s) = false.
Proof.
  intros Hs. pose proof (truthy_strip s) as Ht. rewrite Hs in Ht.
  pose proof (rstrip_starts_clean _ (lstrip_starts_clean s)) as Hc.
  fold (strip s) in Hc. destruct (strip s) as [|c r]; [done|].
  simpl in *. by rewrite Hc.
Qed.

Lemma blank_split (s : string) : blank s = true -> split s = [].
Proof.
  induction s as [|c s IH]; simpl; [done|].
  intros [Hc Hs]%andb_true_iff. rewrite Hc. by apply IH.
Qed.

Lemma isspace_lower_char (c : ascii) : isspace (lower_char c) = isspace c.
Proof. by destruct c as [[] [] [] [] [] [] [] []]. Qed.

Lemma blank_lower (s : string) : blank (lower s) = blank s.
Proof.
  induction s as [|c s IH]; simpl; [done|].
  by rewrite isspace_lower_char, IH.
Qed.

End ExtractionFacts.

Section ExtractionProperties.
Context `{Floats} `{PyRuntime}.
Import PyStr.

(** X16. The fallback is extractive: every sentence it keeps is a run of
    consecutive characters of the top chunk's text, is not blank, contains
    no full stop, and has no whitespace left at either end. *)
Theorem fallback_sentences_are_extracted (query best_chunk : string) :
  Forall (fun sentence =>
            substring_of sentence best_chunk
            /\ blank sentence = false
            /\ has_char "."%char sentence = false
            /\ strip sentence = sentence)
         (LLM.relevant_sentences (LLM.word_set (lower query))
            (LLM.sentences_of best_chunk)).
Proof.
  rewrite relevant_sentences_filter. apply Forall_forall.
  intros sentence [_ Hs]%list_elem_of_filter.
  unfold LLM.sentences_of in Hs.
  apply list_elem_of_fmap in Hs as (piece & -> & Hp).
  apply list_elem_of_In, filter_In in Hp as [Hp Hnb].
  apply list_elem_of_In, split_on_pieces in Hp as [Hsub Hno].
  rewrite truthy_strip in Hnb. apply negb_true_iff in Hnb.
  split; [|split; [|split]].
  - eapply substring_of_trans; [apply strip_substring | exact Hsub].
  - by apply strip_not_blank.
  - eapply has_char_substring; [apply strip_substring | exact Hno].
  - apply strip_idemp.
Qed.

(** X17. A query without a word (empty, or whitespace only) matches no
    sentence: the fallback then always answers with the excerpt of the top
    chunk. *)
Theorem fallback_blank_query (query context best_chunk : string)
    (best_metadata : Metadata) (best_score : Score) (others : list LLM.Chunk) :
  blank query = true ->
  let chunks := (best_chunk, best_metadata, best_score) :: others in
  LLM.relevant_sentences (LLM.word_set (lower query))
    (LLM.sentences_of best_chunk) = []
  /\ (LLM._generate_fallback_response query context chunks).2
     = "I found information related to your query in "
       +:+ default "the document" (source best_metadata) +:+ ", "
       +:+ "but I couldn't extract specific details. Here's what I found:"
       +:+ nl +:+ nl
       +:+ (if (300 <? String.length best_chunk)%nat
            then prefix 300 best_chunk +:+ "..." else best_chunk)
       +:+ nl +:+ nl +:+ "(Relevance: " +:+ format_float 2 best_score +:+ ")"
       +:+ LLM.multi_source_note chunks.
Proof.
  intros Hblank chunks.
  assert (forall sentences,
            filter (shares_word query) sentences = []) as Hnone.
  { intros sentences. induction sentences as [|s l IH]; [done|].
    rewrite filter_cons_False; [done|].
    unfold shares_word. rewrite (blank_split (lower query)) by (by rewrite blank_lower).
    by intros ?%Exists_nil. }
  split; [by rewrite relevant_sentences_filter|].
  subst chunks. rewrite fallback_response_answer, fallback_body_kept, Hnone.
  by rewrite !string_app_assoc.
Qed.


End ExtractionProperties.

Section ModelInfoProperties.
Context `{Floats} `{PyRuntime} `{LLM.Backend}.

(** X19. A service constructed and asked in the same environment uses the
    backend exactly when [OPENAI_API_KEY] is set to a non-empty string: it
    then reports ["gpt-3.5-turbo"] and sends one request per answered
    query; otherwise (also with an empty key) it reports the fallback
    processor and never sends a request. *)
Theorem model_info_matches_strategy (OPENAI_API_KEY : option string)
    (query : string) (c : LLM.Chunk) (cs : list LLM.Chunk) :
  let self := LLM.LLMService_init OPENAI_API_KEY in
  let info := LLMInfo.get_model_info self OPENAI_API_KEY in
  let requests :=
    length (List.filter is_backend_call
              (LLM.generate_response self query (c :: cs)).1) in
  LLMInfo.using_openai info = LLMInfo.api_key_configured info
  /\ ((exists key, OPENAI_API_KEY = Some key /\ key <> "") ->
      LLMInfo.model info = "gpt-3.5-turbo" /\ requests = 1%nat)
  /\ (OPENAI_API_KEY = None \/ OPENAI_API_KEY = Some "" ->
      LLMInfo.model info = "fallback-text-processor" /\ requests = 0%nat).
Proof.
  intros self info requests. split; [done|]. split.
  - intros (key & -> & Hkey). destruct key as [|a key]; [done|].
    by split.
  - by intros [->| ->].
Qed.

End ModelInfoProperties.

(** ** The document processor *)

Section StringLengthFacts.
Import PyStr.

Lemma string_length_app (a b : string) :
  String.length (a +:+ b) = (String.length a + String.length b)%nat.
Proof.
  induction a as [|c a IH]; [done|].
  change (S (String.length (a +:+ b))
          = S (String.length a + String.length b)). by rewrite IH.
Qed.

Lemma substring_length (x s : string) :
  substring_of x s -> (String.length x <= String.length s)%nat.
Proof. intros (p & q & ->). rewrite !string_length_app. lia. Qed.

Lemma prefix_length_le (n : nat) (s : string) :
  (String.length (prefix n s) <= n)%nat.
Proof.
  revert s; induction n as [|n IH]; intros [|c s]; simpl; try lia.
  specialize (IH s). lia.
Qed.

Lemma split_not_blank (s : string) : blank s = false -> split s <> [].
Proof.
  induction s as [|c s IH]; simpl; [done|].
  destruct (isspace c) eqn:Ec; simpl; [exact IH|]. intros _.
  destruct s as [|c' s']; [done|].
  destruct (isspace c'); [done|]. by destruct (split (String c' s')).
Qed.

Lemma not_blank_length (s : string) :
  blank s = false -> (1 <= String.length s)%nat.
Proof. destruct s; simpl; [done | lia]. Qed.

End StringLengthFacts.

Section DocumentProperties.
Context `{Docs.DocumentIO}.
Import PyStr Docs.

(** The loop over the chunks, as a map that leaves the blank ones out. *)
Lemma chunk_objects_omap (chunks : list string) :
  chunk_objects chunks
  = omap (fun ic => object_of ic.1 ic.2) (enumerate chunks).
Proof.
  unfold chunk_objects.
  assert (forall (l : list (nat * string)) acc,
            fold_left
              (fun objects ic =>
                 if truthy (strip ic.2)
                 then objects ++ [{| content := strip ic.2;
                                     chunk_id := ic.1;
                                     char_count := String.length ic.2;
                                     word_count := length (split ic.2) |}]
                 else objects) l acc
            = acc ++ omap (fun ic => object_of ic.1 ic.2) l) as Hfold.
  { induction l as [|[i c] l IH]; intros acc; simpl.
    - by rewrite app_nil_r.
    - rewrite IH. unfold object_of at 2. simpl. rewrite truthy_strip.
      change (list_omap _ _ ?f ?l) with (omap f l).
      destruct (blank c); simpl; [done|]. by rewrite <- app_assoc. }
  by rewrite Hfold.
Qed.

Lemma object_of_facts (i : nat) (chunk : string) (o : ChunkObject) :
  object_of i chunk = Some o ->
  chunk_id o = i
  /\ content o = strip chunk
  /\ blank (content o) = false
  /\ strip (content o) = content o
  /\ substring_of (content o) chunk
  /\ char_count o = String.length chunk
  /\ (1 <= String.length (content o) <= char_count o)%nat
  /\ (1 <= word_count o)%nat.
Proof.
  unfold object_of. destruct (blank chunk) eqn:Hb; [done|].
  intros [= <-]. simpl.
  pose proof (strip_not_blank chunk Hb) as Hnb.
  pose proof (strip_substring chunk) as Hsub.
  repeat split; try done.
  - apply strip_idemp.
  - by apply not_blank_length.
  - by apply substring_length.
  - pose proof (split_not_blank chunk Hb). destruct (split chunk); simpl; [done|lia].
Qed.

(** Offsets of the objects made from position [j] on. *)
Lemma objects_from (j : nat) (chunks : list string) :
  let objects := omap (fun ic => object_of ic.1 ic.2)
                      (imap (fun i c => ((j + i)%nat, c)) chunks) in
  StronglySorted lt (chunk_id <$> objects)
  /\ Forall (fun o => (j <= chunk_id o)%nat
                      /\ exists chunk, chunks !! (chunk_id o - j)%nat = Some chunk
                                       /\ object_of (chunk_id o) chunk = Some o)
            objects
  /\ forall (i : nat) chunk,
       chunks !! i = Some chunk -> blank chunk = false ->
       exists o, o ∈ objects /\ chunk_id o = (j + i)%nat.
Proof.
  revert j. induction chunks as [|c chunks IH]; intros j objects.
  { subst objects. simpl. repeat split; try constructor. by intros i chunk. }
  subst objects. rewrite imap_cons. simpl.
  change (list_omap _ _ ?f ?l) with (omap f l).
  assert (imap ((fun i c0 => ((j + i)%nat, c0)) ∘ S) chunks
          = imap (fun i c0 => ((S j + i)%nat, c0)) chunks) as ->.
  { apply imap_ext. intros i x _. simpl. f_equal. lia. }
  destruct (IH (S j)) as (Hsorted & Hall & Hcomplete).
  rewrite Nat.add_0_r.
  assert (Forall (fun o => (j <= chunk_id o)%nat
                    /\ exists chunk, (c :: chunks) !! (chunk_id o - j)%nat = Some chunk
                                     /\ object_of (chunk_id o) chunk = Some o)
                 (omap (fun ic => object_of ic.1 ic.2)
                       (imap (fun i c0 => ((S j + i)%nat, c0)) chunks))) as Hall'.
  { eapply Forall_impl; [exact Hall|]. intros o (Hle & chunk & Hc & Ho).
    split; [lia|]. exists chunk. split; [|done].
    replace (chunk_id o - j)%nat with (S (chunk_id o - S j)) by lia. done. }
  assert (forall (i : nat) chunk,
            (c :: chunks) !! i = Some chunk -> blank chunk = false ->
            (i = 0%nat /\ chunk = c)
            \/ exists o, o ∈ omap (fun ic => object_of ic.1 ic.2)
                               (imap (fun i c0 => ((S j + i)%nat, c0)) chunks)
                         /\ chunk_id o = (j + i)%nat) as Hcomplete'.
  { intros [|i] chunk Hc Hb; [left; by simplify_eq/=|]. right.
    destruct (Hcomplete i chunk Hc Hb) as (o & Ho & Hid).
    exists o. split; [done|]. lia. }
  destruct (object_of j c) as [o|] eqn:Ho; simpl.
  - destruct (object_of_facts j c o Ho) as (Hid & _).
    split; [|split].
    + constructor; [done|]. rewrite Hid. apply Forall_fmap.
      eapply Forall_impl; [exact Hall|]. intros o' (Hle & _). simpl. lia.
    + constructor; [|done]. rewrite Hid. split; [lia|]. exists c.
      rewrite Nat.sub_diag. done.
    + intros i chunk Hc Hb.
      destruct (Hcomplete' i chunk Hc Hb) as [[-> ->]|(o' & Ho' & Hid')].
      * exists o. split; [left|]. lia.
      * exists o'. split; [by right|done].
  - split; [done|]. split; [done|].
    intros i chunk Hc Hb.
    destruct (Hcomplete' i chunk Hc Hb) as [[-> ->]|(o' & Ho' & Hid')].
    + unfold object_of in Ho. by rewrite Hb in Ho.
    + by exists o'.
Qed.

(** What [process_document] goes through when it returns, and which error
    it raises when it does not. *)
Lemma process_document_cases (self : DocumentProcessor) (file_path : string) :
  process_document self file_path
  = if negb (path_exists file_path)
    then Raises (FileNotFoundError ("File not found: " +:+ path_str file_path))
    else match reader_for file_path with
         | None => Raises (ValueError ("Unsupported file format: "
                                       +:+ path_suffix file_path))
         | Some (Raises e) => Raises e
         | Some (Returns text) =>
             if blank text
             then Raises (ValueError "No text content found in document")
             else Returns (chunk_objects
                             (split_text (chunk_size self) (chunk_overlap self)
                                text))
         end.
Proof.
  unfold process_document, reader_for.
  destruct (path_exists file_path); simpl; [|done].
  set (suffix := lower (path_suffix file_path)).
  assert (forall x : Outcome string,
            match x with
            | Returns text =>
                if negb (truthy (strip text))
                then Raises (ValueError "No text content found in document")
                else Returns (chunk_objects
                                (split_text (chunk_size self)
                                   (chunk_overlap self) text))
            | Raises e => Raises e
            end
            = match x with
              | Raises e => Raises e
              | Returns text =>
                  if blank text
                  then Raises (ValueError "No text content found in document")
                  else Returns (chunk_objects
                                  (split_text (chunk_size self)
                                     (chunk_overlap self) text))
              end) as Hblank.
  { intros [text|e]; [|done]. by rewrite truthy_strip, negb_involutive. }
  destruct (String.eqb_spec suffix ".pdf") as [Hs|Hs].
  { by rewrite bool_decide_eq_true_2 by done. }
  rewrite bool_decide_eq_false_2 by done.
  destruct (String.eqb_spec suffix ".docx") as [Hs'|Hs'].
  { by rewrite bool_decide_eq_true_2 by done. }
  rewrite bool_decide_eq_false_2 by done.
  destruct (String.eqb_spec suffix ".txt") as [Ht|Ht];
    destruct (String.eqb_spec suffix ".md") as [Hm|Hm]; simpl;
    try (by rewrite bool_decide_eq_true_2 by tauto).
  rewrite bool_decide_eq_false_2 by tauto. done.
Qed.

Lemma process_document_objects (self : DocumentProcessor) (file_path : string)
    (objects : list ChunkObject) :
  process_document self file_path = Returns objects ->
  exists text,
    reader_for file_path = Some (Returns text) /\ blank text = false
    /\ objects = chunk_objects
                   (split_text (chunk_size self) (chunk_overlap self) text).
Proof.
  rewrite process_document_cases.
  destruct (path_exists file_path); simpl; [|done].
  destruct (reader_for file_path) as [[text|e]|]; try done.
  destruct (blank text) eqn:Hb; [done|]. intros [= <-]. by exists text.
Qed.

(** X20. The chunk objects of a processed document. Their ids strictly
    increase; each object comes from the non-blank chunk at the position
    of its id in the splitter's output, holds that chunk without its outer
    whitespace and the length and word count of the chunk as it was, so
    that its content is not blank, not longer than [char_count], and has
    at least one word; and no non-blank chunk is left out. *)
Theorem process_document_chunk_objects (self : DocumentProcessor)
    (file_path : string) (objects : list ChunkObject) :
  process_document self file_path = Returns objects ->
  exists text,
    let chunks := split_text (chunk_size self) (chunk_overlap self) text in
    reader_for file_path = Some (Returns text)
    /\ blank text = false
    /\ StronglySorted lt (chunk_id <$> objects)
    /\ Forall (fun o =>
                 exists chunk,
                   chunks !! chunk_id o = Some chunk
                   /\ blank chunk = false
                   /\ content o = strip chunk
                   /\ blank (content o) = false
                   /\ char_count o = String.length chunk
                   /\ word_count o = length (split chunk)
                   /\ (1 <= String.length (content o) <= char_count o)%nat
                   /\ (1 <= word_count o)%nat) objects
    /\ forall (i : nat) chunk,
         chunks !! i = Some chunk -> blank chunk = false ->
         exists o, o ∈ objects /\ chunk_id o = i.
Proof.
  intros (text & Hreader & Hb & ->)%process_document_objects.
  exists text. split; [exact Hreader|]. split; [done|].
  rewrite chunk_objects_omap. unfold enumerate.
  destruct (objects_from 0 (split_text (chunk_size self) (chunk_overlap self) text))
    as (Hsorted & Hall & Hcomplete).
  split; [exact Hsorted|]. split; [|exact Hcomplete].
  eapply Forall_impl; [exact Hall|].
  intros o (_ & chunk & Hc & Ho). rewrite Nat.sub_0_r in Hc.
  destruct (object_of_facts _ _ _ Ho) as (_ & Hcont & Hnb & _ & _ & Hcc & Hlen & Hw).
  exists chunk. repeat split; try done; try lia.
  - unfold object_of in Ho. by destruct (blank chunk).
  - unfold object_of in Ho. destruct (blank chunk); [done|]. by injection Ho as <-.
Qed.

(** X21. The errors of [process_document], in the order of its checks: a
    missing file gives [FileNotFoundError] whatever its suffix; then a
    suffix that is none of [.pdf], [.docx], [.txt], [.md] (compared in
    lowercase) gives the [ValueError] that names the suffix as written;
    then a reader that fails gives its own exception, whose message begins
    with "Error extracting text from"; then a text that is blank gives the
    [ValueError] of an empty document. Otherwise the call returns. *)
Theorem process_document_errors (self : DocumentProcessor) (file_path : string) :
  (path_exists file_path = false ->
   process_document self file_path
   = Raises (FileNotFoundError ("File not found: " +:+ path_str file_path)))
  /\ (path_exists file_path = true ->
      match reader_for file_path with
      | None =>
          process_document self file_path
          = Raises (ValueError ("Unsupported file format: "
                                +:+ path_suffix file_path))
      | Some (Raises e) =>
          process_document self file_path = Raises e
          /\ exists kind detail,
               e = Exception ("Error extracting text from " +:+ kind +:+ ": "
                              +:+ detail)
      | Some (Returns text) =>
          if blank text
          then process_document self file_path
               = Raises (ValueError "No text content found in document")
          else exists objects,
                 process_document self file_path = Returns objects
      end).
Proof.
  rewrite process_document_cases. split; [by intros ->|]. intros ->. simpl.
  destruct (reader_for file_path) as [[text|e]|] eqn:Hr; [| |done].
  - destruct (blank text); [done|]. by eexists.
  - split; [done|]. unfold reader_for in Hr.
    unfold _extract_text_from_pdf, _extract_text_from_docx,
      _extract_text_from_txt in Hr.
    repeat case_bool_decide; simplify_eq.
    + destruct (fitz_pages _) as [msg|pages]; simplify_eq.
      by exists "PDF", msg.
    + destruct (docx_document _) as [msg|[ps ts]]; simplify_eq.
      by exists "DOCX", msg.
    + destruct (read_utf8 _) as [msg|text]; simplify_eq.
      by exists "TXT", msg.
Qed.

Lemma sum_at_least (l : list nat) :
  Forall (fun n => (1 <= n)%nat) l -> (length l <= foldr Nat.add 0%nat l)%nat.
Proof. induction 1 as [|n l Hn _ IH]; simpl; lia. Qed.

(** X22. [get_document_stats] gives the empty dict for no chunk and for
    nothing else. For the chunk objects of a processed document it counts
    the objects, and its two averages are floors of the totals divided by
    the count and are at least 1. *)
Theorem document_stats_of_processed (self : DocumentProcessor)
    (file_path : string) (objects : list ChunkObject) :
  process_document self file_path = Returns objects ->
  match get_document_stats objects with
  | None => objects = []
  | Some stats =>
      objects <> []
      /\ total_chunks stats = length objects
      /\ (avg_chunk_size stats * total_chunks stats <= total_characters stats
          < (avg_chunk_size stats + 1) * total_chunks stats)%nat
      /\ (avg_words_per_chunk stats * total_chunks stats <= total_words stats
          < (avg_words_per_chunk stats + 1) * total_chunks stats)%nat
      /\ (1 <= avg_chunk_size stats)%nat
      /\ (1 <= avg_words_per_chunk stats)%nat
  end.
Proof.
  intros (text & _ & _ & ->)%process_document_objects.
  set (chunks := split_text _ _ _).
  assert (Forall (fun o => (1 <= char_count o)%nat /\ (1 <= word_count o)%nat)
                 (chunk_objects chunks)) as Hall.
  { rewrite chunk_objects_omap. apply Forall_forall. intros o Ho.
    apply list_elem_of_omap in Ho as ([i c] & _ & Ho).
    destruct (object_of_facts _ _ _ Ho) as (_ & _ & _ & _ & _ & _ & Hlen & Hw).
    lia. }
  destruct (chunk_objects chunks) as [|o objects] eqn:Hobjs; [done|].
  unfold get_document_stats. cbn [total_chunks total_characters total_words
    avg_chunk_size avg_words_per_chunk].
  set (n := length (o :: objects)).
  assert (n <> 0%nat) as Hn by done.
  assert (n <= foldr Nat.add 0%nat (map char_count (o :: objects)))%nat as Hc.
  { subst n. rewrite <- (length_map char_count). apply sum_at_least.
    apply Forall_fmap. eapply Forall_impl; [exact Hall|]. simpl. intros; lia. }
  assert (n <= foldr Nat.add 0%nat (map word_count (o :: objects)))%nat as Hw.
  { subst n. rewrite <- (length_map word_count). apply sum_at_least.
    apply Forall_fmap. eapply Forall_impl; [exact Hall|]. simpl. intros; lia. }
  split; [done|]. split; [done|].
  set (tc := foldr Nat.add 0%nat (map char_count (o :: objects))) in *.
  set (tw := foldr Nat.add 0%nat (map word_count (o :: objects))) in *.
  pose proof (Nat.div_mod_eq tc n) as Hdc.
  pose proof (Nat.mod_upper_bound tc n Hn) as Hmc.
  pose proof (Nat.div_mod_eq tw n) as Hdw.
  pose proof (Nat.mod_upper_bound tw n Hn) as Hmw.
  pose proof (Nat.Div0.div_le_mono n tc n Hc) as Hqc.
  pose proof (Nat.Div0.div_le_mono n tw n Hw) as Hqw.
  rewrite Nat.div_same in Hqc, Hqw by done.
  repeat split; nia.
Qed.

End DocumentProperties.

(** ** The endpoints *)

Section EndpointProperties.
Context `{Encoder} `{PyRuntime} `{LLM.Backend} `{!Rounding} `{Docs.DocumentIO}
        `{App.UploadDir}.
Import PyStr App.

(** X23. The batch that the upload endpoint builds from the chunks of a
    document always satisfies the precondition of [add_documents]: texts
    and metadata have the same length, metadata [i] carries the document
    id, the file name as source and the id of chunk [i]; so the store never
    rejects it for a length mismatch, and for a document without chunks
    the store is not touched at all. *)
Theorem upload_batch_is_accepted (fault : Store.SaveFault)
    (new_id name path : string) (chunks : list Docs.ChunkObject)
    (w : Store.World) :
  let batch := upload_batch new_id name path chunks in
  length batch.1 = length batch.2
  /\ Forall2 (fun chunk m =>
                doc_id m = Some new_id
                /\ chunk_id m = Some (Z.of_nat (Docs.chunk_id chunk))
                /\ source m = Some name
                /\ file_path m = Some path) chunks batch.2
  /\ (forall msg, (Store.add_documents fault batch.1 batch.2 w).1
                  <> Raise (ValueError msg))
  /\ (chunks = [] -> Store.add_documents fault batch.1 batch.2 w = (Ok tt, w)).
Proof.
  intros batch. subst batch. unfold upload_batch. cbn [fst snd].
  assert (length (map Docs.content chunks)
          = length (map (fun chunk =>
                           {| doc_id := Some new_id;
                              chunk_id := Some (Z.of_nat (Docs.chunk_id chunk));
                              source := Some name;
                              file_path := Some path |}) chunks)) as Hlen.
  { by rewrite !length_map. }
  split; [exact Hlen|]. split; [|split].
  - induction chunks as [|c chunks IH]; simpl; constructor; [done|].
    apply IH. by rewrite !length_map.
  - intros msg. destruct chunks as [|c chunks]; [done|].
    simpl map in *.
    destruct (decide (Faiss.d (Store.index (Store.self w)) = encoder_dim))
      as [Hdim|Hdim].
    + destruct (add_documents_outcome fault _ _ _ w Hlen Hdim)
        as (w' & -> & _). done.
    + rewrite add_documents_refused; done.
  - by intros ->.
Qed.

Lemma set_vector_store_same (st : AppState) :
  set_vector_store (vector_store st) st = st.
Proof. by destruct st. Qed.

(** What [query_documents] does once there are chunk records. *)
Lemma query_documents_cases (st : AppState) (request_query : string)
    (top_k : Z) (now : string) :
  chunks_db st <> [] ->
  query_documents st request_query top_k now
  = match (Store.similarity_search request_query top_k (vector_store st)).1 with
    | Raise e =>
        (HTTPException 500 ("Error processing query: " +:+ str_exn e), st, [])
    | Ok [] =>
        (Respond
           {| response :=
                "I couldn't find relevant information in the uploaded documents.";
              sources := []; query := request_query; timestamp := now |},
         st, [])
    | Ok (r :: rs) =>
        (Respond
           {| response :=
                (LLM.generate_response (llm_service st) request_query
                   (r :: rs)).2;
              sources := map source_of (r :: rs);
              query := request_query; timestamp := now |},
         st,
         (LLM.generate_response (llm_service st) request_query (r :: rs)).1)
    end.
Proof.
  intros Hdb. unfold query_documents.
  destruct (chunks_db st) as [|c0 cs0]; [done|].
  rewrite similarity_search_world, set_vector_store_same.
  by destruct (Store.similarity_search _ _ _).1 as [[|r rs]|e].
Qed.

(** X24. A query never changes the state of the application, and it
    reaches the synthesizer only when the search returned at least one
    result: with no chunk record it is refused with status 400 before any
    search, a search that raises gives status 500 with the text of the
    exception, and an empty result gives the fixed answer with no source. *)
Theorem query_documents_is_guarded (st : AppState) (request_query : string)
    (top_k : Z) (now : string) :
  let out := query_documents st request_query top_k now in
  out.1.2 = st
  /\ (chunks_db st = [] ->
      out = (HTTPException 400 "No documents uploaded yet", st, []))
  /\ (chunks_db st <> [] ->
      forall e,
        (Store.similarity_search request_query top_k (vector_store st)).1
        = Raise e ->
        out = (HTTPException 500 ("Error processing query: " +:+ str_exn e),
               st, []))
  /\ (chunks_db st <> [] ->
      (Store.similarity_search request_query top_k (vector_store st)).1
      = Ok [] ->
      out = (Respond
               {| response :=
                    "I couldn't find relevant information in the uploaded documents.";
                  sources := []; query := request_query; timestamp := now |},
             st, []))
  /\ (out.2 <> [] ->
      exists r rs,
        (Store.similarity_search request_query top_k (vector_store st)).1
        = Ok (r :: rs)
        /\ out.2 = (LLM.generate_response (llm_service st) request_query
                      (r :: rs)).1).
Proof.
  intros out. subst out.
  destruct (decide (chunks_db st = [])) as [Hdb|Hdb].
  { unfold query_documents. rewrite Hdb. by repeat split. }
  rewrite query_documents_cases by done.
  destruct (Store.similarity_search _ _ _).1 as [[|r rs]|e] eqn:Hs;
    cbn [fst snd]; (split; [done|]); (split; [done|]); (split; [|split]).
  - done.
  - done.
  - done.
  - done.
  - done.
  - intros _. by exists r, rs.
  - by intros _ e' [= <-].
  - done.
  - done.
Qed.

Lemma source_of_preview (found : Store.Found) :
  (String.length (content_preview (source_of found)) <= 203)%nat
  /\ ((String.length found.1.1 <= 200)%nat ->
      content_preview (source_of found) = found.1.1)
  /\ ((200 < String.length found.1.1)%nat ->
      content_preview (source_of found) = prefix 200 found.1.1 +:+ "...").
Proof.
  destruct found as [[text m] sc]. unfold source_of. cbn [content_preview fst].
  destruct (Nat.ltb_spec 200 (String.length text)) as [Hlong|Hshort].
  - split; [|split; [lia|done]].
    rewrite string_length_app. pose proof (prefix_length_le 200 text).
    change (String.length "...") with 3%nat. lia.
  - split; [lia|]. split; [done|lia].
Qed.

(** X25. The sources of a query response follow the results of the
    search one for one and in order: each carries the source label of its
    result (or "Unknown"), its chunk id (or 0), its score rounded to 3
    digits, and a preview that is the text itself up to 200 characters and
    otherwise its first 200 characters followed by "...", so never more
    than 203 characters. *)
Theorem query_documents_sources (st : AppState) (request_query : string)
    (top_k : Z) (now : string) (answer : QueryResponse) (st' : AppState)
    (calls : list LLM.Call) :
  query_documents st request_query top_k now = (Respond answer, st', calls) ->
  exists results,
    (Store.similarity_search request_query top_k (vector_store st)).1
    = Ok results
    /\ query answer = request_query
    /\ timestamp answer = now
    /\ Forall2 (fun (src : Source) (found : Store.Found) =>
                  source_name src = default "Unknown" (source found.1.2)
                  /\ source_chunk_id src = default 0 (chunk_id found.1.2)
                  /\ relevance_score src = round_float 3 found.2
                  /\ (String.length (content_preview src) <= 203)%nat
                  /\ ((String.length found.1.1 <= 200)%nat ->
                      content_preview src = found.1.1)
                  /\ ((200 < String.length found.1.1)%nat ->
                      content_preview src = prefix 200 found.1.1 +:+ "..."))
               (sources answer) results.
Proof.
  intros Hq.
  destruct (decide (chunks_db st = [])) as [Hdb|Hdb].
  { unfold query_documents in Hq. by rewrite Hdb in Hq. }
  rewrite query_documents_cases in Hq by done.
  destruct (Store.similarity_search _ _ _).1 as [results|e]; [|discriminate Hq].
  exists results. split; [done|].
  assert (query answer = request_query /\ timestamp answer = now
          /\ sources answer = map source_of results) as (Hqa & Hts & Hsrc).
  { destruct results as [|r rs]; by injection Hq as <- _ _. }
  split; [done|]. split; [done|]. rewrite Hsrc. clear.
  induction results as [|found results IH]; simpl; constructor; [|exact IH].
  destruct (source_of_preview found) as (Hlen & Hshort & Hlong).
  destruct found as [[text m] sc]. by repeat split.
Qed.

(** X26. Deleting a document does not touch the vector store. For a
    document that is registered, the chunk records of the document are
    removed, the records of other documents stay in their order, and the
    document is no longer registered; the store still holds its vectors, so
    every search returns what it returned before. A document that is not
    registered gives status 404 and no change. *)
Theorem delete_document_leaves_vectors (st : AppState) (target : string) :
  let out := delete_document st target in
  vector_store out.2 = vector_store st
  /\ (forall request_query top_k,
        Store.similarity_search request_query top_k (vector_store out.2)
        = Store.similarity_search request_query top_k (vector_store st))
  /\ (documents_db st !! target = None ->
      out = (HTTPException 404 "Document not found", st))
  /\ (is_Some (documents_db st !! target) ->
      documents_db out.2 = delete target (documents_db st)
      /\ chunks_db out.2
         = filter (fun chunk : ChunkRecord => doc_id chunk.2 <> Some target)
                  (chunks_db st)
      /\ Forall (fun chunk : ChunkRecord => doc_id chunk.2 <> Some target)
                (chunks_db out.2)).
Proof.
  intros out. subst out. unfold delete_document.
  destruct (documents_db st !! target) as [info|] eqn:Hdoc.
  2:{ split; [done|]. split; [done|]. split; [done|]. by intros [? ?]. }
  assert (List.filter
            (fun chunk : ChunkRecord =>
               negb (bool_decide (doc_id chunk.2 = Some target)))
            (chunks_db st)
          = filter (fun chunk : ChunkRecord => doc_id chunk.2 <> Some target)
                   (chunks_db st)) as Hfilter.
  { induction (chunks_db st) as [|c l IH]; [done|]. simpl.
    destruct (decide (doc_id c.2 = Some target)) as [Hc|Hc].
    - rewrite bool_decide_eq_true_2 by done. simpl.
      rewrite filter_cons_False by (by intros ?). exact IH.
    - rewrite bool_decide_eq_false_2 by done. simpl.
      rewrite filter_cons_True by done. by rewrite IH. }
  destruct (unlink_matching _ _).1; cbn [fst snd vector_store documents_db
    chunks_db]; rewrite Hfilter;
    (split; [done|]); (split; [done|]); (split; [done|]); intros _;
    (split; [done|]); (split; [done|]);
    apply Forall_forall; intros c Hc; by apply list_elem_of_filter in Hc as [? _].
Qed.

(** X27. Once the last document has been deleted, every query is refused
    with status 400, although the vectors of the deleted documents are
    still in the store. *)
Theorem query_after_last_delete (st : AppState) (target : string)
    (request_query : string) (top_k : Z) (now : string) :
  is_Some (documents_db st !! target) ->
  Forall (fun chunk : ChunkRecord => doc_id chunk.2 = Some target)
         (chunks_db st) ->
  let st' := (delete_document st target).2 in
  query_documents st' request_query top_k now
  = (HTTPException 400 "No documents uploaded yet", st', [])
  /\ Store.get_stats (Store.self (vector_store st'))
     = Store.get_stats (Store.self (vector_store st)).
Proof.
  intros [info Hdoc] Hall st'.
  assert (chunks_db st' = [] /\ vector_store st' = vector_store st) as [Hdb Hvs].
  { subst st'. unfold delete_document. rewrite Hdoc.
    assert (List.filter
              (fun chunk : ChunkRecord =>
                 negb (bool_decide (doc_id chunk.2 = Some target)))
              (chunks_db st) = []) as Hnone.
    { induction Hall as [|c l Hc _ IH]; [done|]. simpl.
      by rewrite bool_decide_eq_true_2 by done. }
    by destruct (unlink_matching _ _).1; cbn; rewrite Hnone. }
  split; [|by rewrite Hvs].
  unfold query_documents. by rewrite Hdb.
Qed.

End EndpointProperties.

(** ** Documents without text, side tables without texts *)

Section BlankDocumentProperties.
Context `{Docs.DocumentIO}.
Import PyStr Docs.

Lemma blank_app (a b : string) : blank (a +:+ b) = blank a && blank b.
Proof.
  induction a as [|c a IH]; [done|].
  change (blank (String c (a +:+ b)) = blank (String c a) && blank b).
  simpl. by rewrite IH, andb_assoc.
Qed.

Lemma blank_fold (sep : string) (parts : list string) (text : string) :
  blank sep = true -> blank text = true -> Forall (fun p => blank p = true) parts ->
  blank (fold_left (fun text part => text +:+ (part +:+ sep)) parts text) = true.
Proof.
  intros Hsep Htext Hparts. revert text Htext.
  induction Hparts as [|p parts Hp _ IH]; intros text Htext; simpl; [done|].
  apply IH. by rewrite !blank_app, Htext, Hp, Hsep.
Qed.

(** X28. A PDF without a page, or whose pages carry no text but
    whitespace (a scan without a text layer), is not indexed:
    [process_document] raises the [ValueError] of an empty document, and
    so it does for a text file that is empty or blank. *)
Theorem process_document_rejects_blank (self : DocumentProcessor)
    (file_path : string) :
  path_exists file_path = true ->
  (lower (path_suffix file_path) = ".pdf"
   /\ exists pages, fitz_pages (path_str file_path) = inr pages
                    /\ Forall (fun page => blank page = true) pages)
  \/ ((lower (path_suffix file_path) = ".txt"
       \/ lower (path_suffix file_path) = ".md")
      /\ exists text, read_utf8 (path_str file_path) = inr text
                      /\ blank text = true) ->
  process_document self file_path
  = Raises (ValueError "No text content found in document").
Proof.
  intros Hexists Hblank. rewrite process_document_cases, Hexists. simpl.
  unfold reader_for.
  destruct Hblank as [[Hpdf (pages & Hpages & Hall)]
                     |[Htxt (text & Htext & Hb)]].
  - rewrite bool_decide_eq_true_2 by done.
    unfold _extract_text_from_pdf. rewrite Hpages.
    by rewrite (blank_fold nl pages "" eq_refl eq_refl Hall).
  - rewrite bool_decide_eq_false_2 by (destruct Htxt as [-> | ->]; done).
    rewrite bool_decide_eq_false_2 by (destruct Htxt as [-> | ->]; done).
    rewrite bool_decide_eq_true_2 by done.
    unfold _extract_text_from_txt. rewrite Htext. by rewrite Hb.
Qed.

End BlankDocumentProperties.

Section PartialSideTableProperties.
Context `{Encoder} `{PyRuntime}.
Import Faiss Store.

(** Construction on a disk that holds a readable index and a side table
    with any of its keys missing. *)
Lemma init_loads_partial (name ipath mpath : string) (dk : gmap string File)
    (ix : IndexFlatIP) (pm : option (list Metadata)) (pt : option (list string))
    (pn : option string) :
  dk !! ipath = Some (FaissBlob ix) ->
  dk !! mpath = Some (PickleBlob (PDict pm pt pn)) ->
  exists lg,
    VectorStore_init name ipath mpath dk
    = (Ok tt,
       {| self := {| model_name := name; index_path := ipath;
                     metadata_path := mpath; dimension := 384;
                     index := ix; metadata := default [] pm;
                     texts := default [] pt |};
          disk := dk; log := lg |})
    /\ (pn = None -> Forall (fun rec => rec.1 = INFO) lg).
Proof.
  intros Ei Em.
  unfold VectorStore_init, _load_index, read_index, pickle_load.
  unfold try_except, bind, logger, get_self, exists_, get_disk, modify_self,
    raise, ret.
  simpl. rewrite Ei, Em. simpl. rewrite Ei. simpl. rewrite Em. simpl.
  destruct (bool_decide (default name pn ≠ name)) eqn:Hb.
  - eexists. split; [reflexivity|]. intros ->. simpl in Hb.
    by apply bool_decide_eq_true_1 in Hb.
  - eexists. split; [reflexivity|]. intros _. by repeat constructor.
Qed.

(** X29. A side table that lacks the key of the texts loads without
    error as a store that has the vectors of the index file and no text;
    on such a store every search for [k >= 1] returns the empty list, each
    hit being dropped, although [total_vectors] is not 0. A side table that
    lacks the model name loads without a warning. *)
Theorem load_without_texts_finds_nothing (name ipath mpath : string)
    (dk : gmap string File) (ix : IndexFlatIP)
    (pm : option (list Metadata)) (pn : option string) (query : string) (k : Z) :
  encoder_rows ->
  dk !! ipath = Some (FaissBlob ix) ->
  dk !! mpath = Some (PickleBlob (PDict pm None pn)) ->
  ntotal ix <> 0 ->
  d ix = encoder_dim ->
  1 <= k ->
  let out := VectorStore_init name ipath mpath dk in
  out.1 = Ok tt
  /\ total_vectors (get_stats (self out.2)) = ntotal ix
  /\ total_texts (get_stats (self out.2)) = 0%nat
  /\ similarity_search query k out.2 = (Ok [], out.2)
  /\ (pn = None -> Forall (fun rec => rec.1 = INFO) (log out.2)).
Proof.
  intros Hrows Ei Em Hn Hdim Hk out. subst out.
  destruct (init_loads_partial name ipath mpath dk ix pm None pn Ei Em)
    as (lg & -> & Hlog).
  cbn [fst snd self log]. split; [done|]. split; [done|]. split; [done|].
  split; [|exact Hlog].
  pose proof (Hrows [query]) as Hone.
  destruct (encode [query]) as [|q0 [|q1 qs]] eqn:Hq; simpl in Hone; try done.
  rewrite (similarity_search_hits query k _ q0); try done; [|simpl; lia].
  f_equal. f_equal. cbn [self texts].
  match goal with |- omap _ ?l = _ => generalize l end.
  intros hits. induction hits as [|h hits IH]; [done|].
  match goal with |- omap (reported ?st) _ = _ =>
    assert (reported st h = None) as Hnone end.
  { unfold reported, valid_offset. cbn [texts length default].
    destruct (0 <=? h.2) eqn:E; [|done].
    apply Z.leb_le in E. by rewrite (proj2 (Z.ltb_ge _ _)) by (simpl; lia). }
  cbn [omap list_omap]. rewrite Hnone. exact IH.
Qed.

End PartialSideTableProperties.

(** * Concrete runs *)

Import Sample.

Lemma fallback_answers_with_matching_sentences_witness :
  (LLM._generate_fallback_response "Where is the ice" ""
     [("Ice floats. Stones sink.", Sample.meta "doc1" 0, 1%Z)]).2
  = "Based on the available information:" +:+ PyStr.nl +:+ PyStr.nl
    +:+ PyStr.join ". " (take 3 (filter (shares_word "Where is the ice")
                                  (segments "Ice floats. Stones sink.")))
    +:+ PyStr.nl +:+ PyStr.nl +:+ "Source: " +:+ "doc1"
    +:+ " (Relevance: " +:+ format_float 2 1%Z +:+ ")"
    +:+ LLM.multi_source_note [("Ice floats. Stones sink.", Sample.meta "doc1" 0, 1%Z)]
  /\ segments Sample.exclaimed_chunk = [PyStr.strip Sample.exclaimed_chunk].
Proof.
  split.
  - apply (fallback_answers_with_matching_sentences (H := Sample.floats)
             (H0 := Sample.runtime)
             "Where is the ice" "" "Ice floats. Stones sink."
             (Sample.meta "doc1" 0) 1%Z []).
    vm_compute. discriminate.
  - destruct (fallback_answers_with_matching_sentences (H := Sample.floats)
                (H0 := Sample.runtime)
                "Where is the ice" "" Sample.exclaimed_chunk
                (Sample.meta "doc1" 0) 1%Z [])
      as (_ & Hone & _).
    apply Hone; reflexivity.
Defined.

(** C4 as the specification states it does not hold for a text whose
    sentences end with another mark than the full stop. Cut at
    sentence-terminating punctuation, the chunk has three segments, and the
    two that share a word with the query of scenario C leave "The sky is
    blue" out. The code cuts at full stops only: the chunk is one sentence,
    it shares a word with the query, and the answer gives the whole chunk,
    "The sky is blue" included. *)
Lemma fallback_keeps_exclaimed_chunk_whole :
  let spec_kept := filter (shares_word Sample.scenario_c_query)
                          (spec_segments Sample.exclaimed_chunk) in
  let answer :=
    (LLM._generate_fallback_response (H0 := Sample.runtime)
       Sample.scenario_c_query ""
       [(Sample.exclaimed_chunk, Sample.meta "doc1" 0, 1%Z)]).2 in
  spec_segments Sample.exclaimed_chunk
  = ["The sky is blue"; "Water boils at 100 degrees"; "Ice melts at 0 degrees"]
  /\ spec_kept = ["Water boils at 100 degrees"; "Ice melts at 0 degrees"]
  /\ LLM.sentences_of Sample.exclaimed_chunk = [Sample.exclaimed_chunk]
  /\ LLM.relevant_sentences (LLM.word_set (PyStr.lower Sample.scenario_c_query))
       (LLM.sentences_of Sample.exclaimed_chunk)
     = [Sample.exclaimed_chunk]
  /\ answer
     = "Based on the available information:" +:+ PyStr.nl +:+ PyStr.nl
       +:+ "The sky is blue! Water boils at 100 degrees! Ice melts at 0 degrees!"
       +:+ PyStr.nl +:+ PyStr.nl +:+ "Source: doc1 (Relevance: 1.00)"
  /\ answer
     <> "Based on the available information:" +:+ PyStr.nl +:+ PyStr.nl
        +:+ PyStr.join ". " (take 3 spec_kept)
        +:+ PyStr.nl +:+ PyStr.nl +:+ "Source: doc1 (Relevance: 1.00)".
Proof.
  intros spec_kept answer.
  assert (spec_kept
          = ["Water boils at 100 degrees"; "Ice melts at 0 degrees"]) as Hkept.
  { by vm_compute. }
  assert (LLM.relevant_sentences
            (LLM.word_set (PyStr.lower Sample.scenario_c_query))
            (LLM.sentences_of Sample.exclaimed_chunk)
          = [Sample.exclaimed_chunk]) as Hcode.
  { rewrite relevant_sentences_filter. by vm_compute. }
  assert (answer
          = "Based on the available information:" +:+ PyStr.nl +:+ PyStr.nl
            +:+ "The sky is blue! Water boils at 100 degrees! Ice melts at 0 degrees!"
            +:+ PyStr.nl +:+ PyStr.nl +:+ "Source: doc1 (Relevance: 1.00)")
    as Hanswer.
  { subst answer. rewrite fallback_response_answer.
    unfold LLM.fallback_body. rewrite Hcode. by vm_compute. }
  split; [by vm_compute|]. split; [exact Hkept|]. split; [by vm_compute|].
  split; [exact Hcode|]. split; [exact Hanswer|].
  rewrite Hanswer, Hkept. by vm_compute.
Qed.

Lemma fallback_excerpt_when_nothing_matches_witness :
  exists excerpt,
    (LLM._generate_fallback_response "unrelated" ""
       [("Ice floats. Stones sink.", Sample.no_meta, 1%Z)]).2
    = "I found information related to your query in " +:+ "the document"
      +:+ ", "
      +:+ "but I couldn't extract specific details. Here's what I found:"
      +:+ PyStr.nl +:+ PyStr.nl +:+ excerpt +:+ PyStr.nl +:+ PyStr.nl
      +:+ ("(Relevance: " +:+ format_float 2 1%Z +:+ ")")
      +:+ LLM.multi_source_note [("Ice floats. Stones sink.", Sample.no_meta, 1%Z)]
    /\ excerpt = "Ice floats. Stones sink.".
Proof.
  destruct (fallback_excerpt_when_nothing_matches (H := Sample.floats)
              (H0 := Sample.runtime)
              "unrelated" "" "Ice floats. Stones sink." Sample.no_meta 1%Z [])
    as [Hnone _].
  destruct Hnone as (excerpt & Hans & Hshort & _); [by vm_compute|].
  exists excerpt. split; [exact Hans|]. apply Hshort. vm_compute. lia.
Defined.

Lemma fallback_notes_distinct_sources_witness :
  let chunks : list (@LLM.Chunk Sample.floats) :=
    [("Ice floats.", Sample.meta "doc1" 0, 2%Z);
     ("Stones sink.", Sample.meta "doc2" 3, 1%Z)] in
  let answer :=
    (LLM._generate_fallback_response (H0 := Sample.runtime) "ice" "" chunks).2 in
  answer = LLM.fallback_body "ice" chunks
           +:+ PyStr.nl +:+ PyStr.nl +:+ "Information was found across 2 sources: "
           +:+ "doc1" +:+ ", " +:+ "doc2"
  \/ answer = LLM.fallback_body "ice" chunks
              +:+ PyStr.nl +:+ PyStr.nl +:+ "Information was found across 2 sources: "
              +:+ "doc2" +:+ ", " +:+ "doc1".
Proof.
  intros chunks answer.
  apply (fallback_notes_distinct_sources (H := Sample.floats)
           (H0 := Sample.runtime) "ice" "" chunks).
  - intros X. reflexivity.
  - simpl. lia.
  - vm_compute. lia.
  - discriminate.
  - vm_compute. reflexivity.
Defined.

Lemma sample_score_order : @score_order Sample.floats.
Proof.
  split; simpl.
  - intros a b. destruct (Z.leb_spec a b); [by left|]. right. apply Z.leb_le. lia.
  - intros a b c Hab Hbc. apply Z.leb_le. apply Z.leb_le in Hab, Hbc. lia.
Qed.

Lemma sample_encoder_rows : @encoder_rows Sample.floats Sample.encoder.
Proof. intros ts. simpl. apply length_map. Qed.



Lemma add_documents_grows_store_witness :
  exists w',
    Store.add_documents Store.SaveSucceeds ["a new chunk"] [Sample.no_meta]
      Sample.two_chunks = (Ok tt, w')
    /\ Store.total_vectors (Store.get_stats (Store.self w')) = 3.
Proof.
  destruct (add_documents_grows_store (H1 := Sample.runtime)
              Store.SaveSucceeds ["a new chunk"] [Sample.no_meta]
              Sample.two_chunks sample_encoder_rows eq_refl)
    as [Hreturns Hgrows].
  destruct Hreturns as [w' Hadd]; [right; reflexivity|].
  exists w'. split; [exact Hadd|].
  destruct (Hgrows w' Hadd) as (Htotal & _). rewrite Htotal. reflexivity.
Defined.

Lemma add_documents_rejects_mismatch_witness :
  Store.add_documents Store.SaveSucceeds ["a new chunk"] [] Sample.two_chunks
  = (Raise (ValueError "Number of texts and metadatas must match"),
     Sample.two_chunks)
  /\ Store.get_stats
       (Store.self (Store.add_documents Store.SaveSucceeds ["a new chunk"] []
                      Sample.two_chunks).2)
     = Store.get_stats (Store.self Sample.two_chunks).
Proof.
  apply (add_documents_rejects_mismatch (H1 := Sample.runtime)).
  simpl. lia.
Defined.

Lemma load_never_raises_witness :
  (let s := Store.self (Store.VectorStore_init (H1 := Sample.runtime)
                          "all-MiniLM-L6-v2" "vector_index.faiss"
                          "vector_metadata.pkl" ∅).2 in
   Store.index s = Faiss.new 384 /\ Store.texts s = [] /\ Store.metadata s = []
   /\ Store.total_vectors (Store.get_stats s) = 0)
  /\ (let s := Store.self (Store.VectorStore_init (H1 := Sample.runtime)
                             "all-MiniLM-L6-v2" "vector_index.faiss"
                             "vector_metadata.pkl" Sample.stale_disk).2 in
      Store.index s = Store.index (Store.self Sample.two_chunks)
      /\ Store.metadata s = Store.metadata (Store.self Sample.two_chunks)
      /\ Store.texts s = Store.texts (Store.self Sample.two_chunks)).
Proof.
  split.
  - destruct (load_never_raises (H1 := Sample.runtime) "all-MiniLM-L6-v2"
                "vector_index.faiss" "vector_metadata.pkl" ∅)
      as (_ & _ & Hempty & _).
    apply Hempty. left. intros ix. by rewrite lookup_empty.
  - destruct (load_never_raises (H1 := Sample.runtime) "all-MiniLM-L6-v2"
                "vector_index.faiss" "vector_metadata.pkl" Sample.stale_disk)
      as (_ & _ & _ & Hstale).
    destruct (Hstale (Store.index (Store.self Sample.two_chunks))
                (Store.metadata (Store.self Sample.two_chunks))
                (Store.texts (Store.self Sample.two_chunks))
                "another-model")
      as (Hix & Hms & Hts & _); [by vm_compute .. | done].
Defined.

(** ** Runs of the further properties *)

Import SampleApp.


Lemma sample_aligned : aligned (Store.self Sample.two_chunks).
Proof. split; reflexivity. Qed.

Lemma save_then_load_restores_witness :
  Store.texts
    (Store.self
       (Store.VectorStore_init (H1 := Sample.runtime) "sample"
          "vector_index.faiss" "vector_metadata.pkl"
          (Store.disk saved_two_chunks)).2)
  = ["abc"; "abcde"].
Proof.
  destruct (save_then_load_restores (H1 := Sample.runtime) Sample.two_chunks)
    as (_ & _ & Htexts & _); [discriminate|].
  exact Htexts.
Defined.

Lemma save_to_one_path_loses_store_witness :
  Store.texts
    (Store.self
       (Store.VectorStore_init (H1 := Sample.runtime) "sample" "store.bin"
          "store.bin"
          (Store.disk (Store._save_index (H1 := Sample.runtime)
                         Store.SaveSucceeds one_path).2)).2)
  = [].
Proof.
  destruct (save_to_one_path_loses_store (H1 := Sample.runtime) one_path)
    as (_ & _ & Htexts & _); [reflexivity|].
  exact Htexts.
Defined.

Lemma add_documents_keeps_entries_when_save_fails_witness :
  (Store.add_documents (H1 := Sample.runtime) (Store.WriteIndexFails None)
     ["a new chunk"] [Sample.no_meta] Sample.two_chunks).1 = Ok tt.
Proof.
  rewrite (add_documents_keeps_entries_when_save_fails (H1 := Sample.runtime)
             (Store.WriteIndexFails None) ["a new chunk"] [Sample.no_meta]
             Sample.two_chunks "vector_index.faiss"
             (partial_alter (fun _ => None) "vector_index.faiss" ∅)).
  - reflexivity.
  - discriminate.
  - reflexivity.
  - reflexivity.
  - reflexivity.
Defined.

Lemma torn_save_reloads_misaligned_witness :
  ~ aligned
      (Store.self
         (Store.VectorStore_init (H1 := Sample.runtime) "sample"
            "vector_index.faiss" "vector_metadata.pkl"
            (Store.disk
               (Store.add_documents (H1 := Sample.runtime)
                  (Store.WriteMetadataFails
                     (Store.disk saved_two_chunks !! "vector_metadata.pkl"))
                  ["a new chunk"] [Sample.no_meta] saved_two_chunks).2)).2).
Proof.
  destruct (torn_save_reloads_misaligned (H1 := Sample.runtime)
              ["a new chunk"] [Sample.no_meta] saved_two_chunks
              (Store.metadata (Store.self Sample.two_chunks))
              (Store.texts (Store.self Sample.two_chunks)) "sample")
    as (_ & _ & _ & _ & Hmis).
  - discriminate.
  - reflexivity.
  - reflexivity.
  - exact sample_encoder_rows.
  - discriminate.
  - vm_compute. reflexivity.
  - reflexivity.
  - exact Hmis.
Defined.

Lemma add_documents_dimension_mismatch_witness :
  (Store.add_documents (H1 := Sample.runtime) Store.SaveSucceeds
     ["a new chunk"] [Sample.no_meta] Sample.empty_world).1
  = Raise AssertionError.
Proof.
  rewrite (add_documents_dimension_mismatch (H1 := Sample.runtime)).
  - reflexivity.
  - discriminate.
  - reflexivity.
  - simpl. lia.
Defined.

Lemma add_documents_appends_witness :
  Store.texts
    (Store.self
       (Store.add_documents (H1 := Sample.runtime) Store.SaveSucceeds
          ["a new chunk"] [Sample.no_meta] Sample.two_chunks).2) !! 0%nat
  = Some "abc".
Proof.
  destruct (add_documents_appends (H1 := Sample.runtime) Store.SaveSucceeds
              ["a new chunk"] [Sample.no_meta] Sample.two_chunks
              (Store.add_documents (H1 := Sample.runtime) Store.SaveSucceeds
                 ["a new chunk"] [Sample.no_meta] Sample.two_chunks).2
              sample_encoder_rows sample_aligned)
    as (Hkept & _).
  - reflexivity.
  - apply Hkept. reflexivity.
Defined.

Lemma clear_removes_files_witness :
  (Store.clear (fun _ => false) saved_two_chunks).1
  = Ok tt.
Proof.
  destruct (clear_removes_files (H1 := Sample.runtime) (fun _ => false)
              saved_two_chunks) as (Hclear & _); [reflexivity|].
  by rewrite Hclear.
Defined.

Lemma clear_fails_after_reset_witness :
  (Store.clear (fun _ => true) saved_two_chunks).1
  = Raise (OSError "vector_index.faiss").
Proof.
  rewrite clear_fails_after_reset.
  - reflexivity.
  - vm_compute. by eexists.
  - reflexivity.
Defined.

Lemma similarity_search_exact_count_witness :
  exists rs,
    Store.similarity_search "hello" 5 Sample.two_chunks
    = (Ok rs, Sample.two_chunks)
    /\ Z.of_nat (length rs) = 2.
Proof.
  destruct (similarity_search_exact_count "hello" 5 Sample.two_chunks
              sample_encoder_rows sample_aligned)
    as (q0 & rs & _ & Hs & Hn & _).
  - vm_compute. discriminate.
  - lia.
  - reflexivity.
  - exists rs. split; [exact Hs | exact Hn].
Defined.

Lemma similarity_search_returns_all_witness :
  exists rs,
    Store.similarity_search "hello" 5 Sample.two_chunks
    = (Ok rs, Sample.two_chunks)
    /\ fst <$> rs ≡ₚ [("abc", Sample.meta "doc1" 0);
                      ("abcde", Sample.meta "doc2" 0)].
Proof.
  apply (similarity_search_returns_all "hello" 5 Sample.two_chunks
           sample_encoder_rows sample_aligned).
  - vm_compute. discriminate.
  - vm_compute. discriminate.
  - reflexivity.
Defined.

Lemma similarity_search_best_first_witness :
  exists q0 r rs,
    encode ["hello"] = [q0]
    /\ Store.similarity_search "hello" 5 Sample.two_chunks
       = (Ok (r :: rs), Sample.two_chunks)
    /\ forall v, v ∈ Faiss.xb (Store.index (Store.self Sample.two_chunks)) ->
                 not_below r.2 (inner (normalize_L2 q0) v).
Proof.
  apply (similarity_search_best_first "hello" 5 Sample.two_chunks
           sample_score_order sample_encoder_rows sample_aligned).
  - vm_compute. discriminate.
  - lia.
  - reflexivity.
Defined.

Lemma fallback_ignores_query_case_witness :
  LLM._generate_fallback_response (H0 := Sample.runtime) "ICE floats" ""
    [("Ice floats.", Sample.meta "doc1" 0, 1%Z)]
  = LLM._generate_fallback_response (H0 := Sample.runtime) "ice FLOATS" ""
      [("Ice floats.", Sample.meta "doc1" 0, 1%Z)].
Proof.
  apply (fallback_ignores_query_case (H := Sample.floats) (H0 := Sample.runtime)). reflexivity.
Defined.

Lemma fallback_blank_query_witness :
  LLM.relevant_sentences (LLM.word_set (PyStr.lower "   "))
    (LLM.sentences_of "Ice floats. Stones sink.") = [].
Proof.
  destruct (fallback_blank_query (H := Sample.floats) (H0 := Sample.runtime)
              "   " "" "Ice floats. Stones sink." Sample.no_meta 1%Z [])
    as [Hnone _]; [reflexivity|].
  exact Hnone.
Defined.


Lemma model_info_matches_strategy_witness :
  LLMInfo.model
    (LLMInfo.get_model_info (LLM.LLMService_init (Some "sk-key"))
       (Some "sk-key"))
  = "gpt-3.5-turbo".
Proof.
  destruct (model_info_matches_strategy (H := Sample.floats) (H0 := Sample.runtime) (Some "sk-key")
              "ice" ("Ice floats.", Sample.meta "doc1" 0, 1%Z) [])
    as (_ & Hset & _).
  destruct Hset as [Hmodel _]; [by exists "sk-key"|].
  exact Hmodel.
Defined.

Lemma process_document_chunk_objects_witness :
  exists objects,
    Docs.process_document Docs.default_processor "notes.TXT"
    = Docs.Returns objects
    /\ StronglySorted lt (Docs.chunk_id <$> objects).
Proof.
  eexists. split; [reflexivity|].
  edestruct (process_document_chunk_objects Docs.default_processor "notes.TXT")
    as (text & _ & _ & Hsorted & _); [reflexivity|].
  exact Hsorted.
Defined.

Lemma process_document_errors_witness :
  Docs.process_document Docs.default_processor "missing.txt"
  = Docs.Raises (Docs.FileNotFoundError "File not found: missing.txt")
  /\ Docs.process_document Docs.default_processor "tool.exe"
     = Docs.Raises (Docs.ValueError "Unsupported file format: .exe").
Proof.
  split.
  - destruct (process_document_errors Docs.default_processor "missing.txt")
      as [Hmissing _].
    apply Hmissing. reflexivity.
  - destruct (process_document_errors Docs.default_processor "tool.exe")
      as [_ Hformat].
    apply Hformat. reflexivity.
Defined.

Lemma document_stats_of_processed_witness :
  exists objects stats,
    Docs.process_document Docs.default_processor "notes.TXT"
    = Docs.Returns objects
    /\ Docs.get_document_stats objects = Some stats
    /\ (1 <= Docs.avg_chunk_size stats)%nat.
Proof.
  eexists. eexists. split; [reflexivity|]. split; [reflexivity|].
  pose proof (document_stats_of_processed Docs.default_processor "notes.TXT"
                _ eq_refl) as Hstats.
  simpl in Hstats. destruct Hstats as (_ & _ & _ & _ & Havg & _). exact Havg.
Defined.

Lemma upload_batch_is_accepted_witness :
  Store.add_documents (H1 := Sample.runtime) Store.SaveSucceeds
    (App.upload_batch "doc3" "empty.txt" "uploads/doc3_empty.txt" []).1
    (App.upload_batch "doc3" "empty.txt" "uploads/doc3_empty.txt" []).2
    Sample.two_chunks
  = (Ok tt, Sample.two_chunks).
Proof.
  destruct (upload_batch_is_accepted (H1 := Sample.runtime) Store.SaveSucceeds
              "doc3" "empty.txt" "uploads/doc3_empty.txt" [] Sample.two_chunks)
    as (_ & _ & _ & Hempty).
  apply Hempty. reflexivity.
Defined.

Lemma query_documents_is_guarded_witness :
  App.query_documents (H1 := Sample.runtime) no_document "anything" 5 "now"
  = (App.HTTPException 400 "No documents uploaded yet", no_document, [])
  /\ App.query_documents (H1 := Sample.runtime) records_without_vectors
       "anything" 5 "now"
     = (App.Respond
          {| App.response :=
               "I couldn't find relevant information in the uploaded documents.";
             App.sources := []; App.query := "anything";
             App.timestamp := "now" |},
        records_without_vectors, [])
  /\ App.query_documents (H1 := Sample.runtime) records_without_label
       "hello" 1 "now"
     = (App.HTTPException 500
          "Error processing query: list index out of range",
        records_without_label, []).
Proof.
  split; [|split].
  - destruct (query_documents_is_guarded (H1 := Sample.runtime) no_document
                "anything" 5 "now") as (_ & Hrefused & _).
    apply Hrefused. reflexivity.
  - destruct (query_documents_is_guarded (H1 := Sample.runtime)
                records_without_vectors "anything" 5 "now")
      as (_ & _ & _ & Hempty & _).
    apply Hempty; [discriminate | reflexivity].
  - destruct (query_documents_is_guarded (H1 := Sample.runtime)
                records_without_label "hello" 1 "now")
      as (_ & _ & Hraised & _).
    apply (Hraised ltac:(discriminate) IndexError). reflexivity.
Defined.

Lemma query_documents_sources_witness :
  exists answer st' calls,
    App.query_documents (H1 := Sample.runtime) two_documents "hello" 5 "now"
    = (App.Respond answer, st', calls)
    /\ length (App.sources answer) = 2%nat.
Proof.
  eexists. eexists. eexists. split; [reflexivity|].
  edestruct (query_documents_sources (H1 := Sample.runtime) two_documents
               "hello" 5 "now") as (results & Hsearch & _ & _ & Hsources);
    [reflexivity|].
  apply Forall2_length in Hsources. rewrite Hsources.
  injection Hsearch as <-. reflexivity.
Defined.

Lemma delete_document_leaves_vectors_witness :
  App.chunks_db (App.delete_document (H1 := Sample.runtime) two_documents
                   "doc1").2
  = [chunk_record "abcde" "doc2" 0].
Proof.
  destruct (delete_document_leaves_vectors (H1 := Sample.runtime)
              two_documents "doc1") as (_ & _ & _ & Hdeleted).
  destruct Hdeleted as (_ & Hchunks & _); [vm_compute; by eexists|].
  rewrite Hchunks. reflexivity.
Defined.

Lemma query_after_last_delete_witness :
  App.query_documents (H1 := Sample.runtime)
    (App.delete_document (H1 := Sample.runtime) one_document "doc1").2
    "hello" 5 "now"
  = (App.HTTPException 400 "No documents uploaded yet",
     (App.delete_document (H1 := Sample.runtime) one_document "doc1").2, []).
Proof.
  apply (query_after_last_delete (H1 := Sample.runtime) one_document "doc1").
  - vm_compute. by eexists.
  - repeat constructor.
Defined.

Lemma process_document_rejects_blank_witness :
  Docs.process_document Docs.default_processor "blank.md"
  = Docs.Raises (Docs.ValueError "No text content found in document").
Proof.
  apply (process_document_rejects_blank Docs.default_processor "blank.md").
  - reflexivity.
  - right. split; [by right|]. exists "   ". by split.
Defined.

Lemma load_without_texts_finds_nothing_witness :
  Store.similarity_search "hello" 5
    (Store.VectorStore_init (H1 := Sample.runtime) "sample"
       "vector_index.faiss" "vector_metadata.pkl" texts_lost).2
  = (Ok [],
     (Store.VectorStore_init (H1 := Sample.runtime) "sample"
        "vector_index.faiss" "vector_metadata.pkl" texts_lost).2).
Proof.
  destruct (load_without_texts_finds_nothing (H1 := Sample.runtime) "sample"
              "vector_index.faiss" "vector_metadata.pkl" texts_lost
              (Store.index (Store.self Sample.two_chunks))
              (Some (Store.metadata (Store.self Sample.two_chunks)))
              (Some "sample") "hello" 5 sample_encoder_rows)
    as (_ & _ & _ & Hsearch & _).
  - vm_compute. reflexivity.
  - vm_compute. reflexivity.
  - vm_compute. discriminate.
  - reflexivity.
  - lia.
  - exact Hsearch.
Defined.
